(** * rest_client/client.go: a shallow embedding and its properties

    The embedding follows [src/rest_client/client.go] function by
    function.  Go's [(value, error)] results are pairs whose halves are
    options ([None] is [nil]); a nil dereference is a panic, kept apart
    from returned errors.  The packages the client calls ([net/url],
    [net/http], [encoding/json], [time]) are a [Runtime] the development
    is parametric in, except for the parts the client's behaviour is made
    of ([url.Values], [http.Header], decoding a parsed JSON document into
    the client's structs), which are written out.  [Module Ref] gives one
    executable runtime, used to run the client on concrete servers. *)

From Stdlib Require Import ZArith Ascii String List Lia.
From stdpp Require Import base option strings gmap list sorting.

(** ** Errors, results and panics *)

(** The [error] values that can reach the client's callers, by origin. *)
Inductive error : Type :=
  | url_Error (msg : string)                (* net/url: *url.Error *)
  | http_Error (msg : string)               (* net/http: NewRequest and transport *)
  | io_Error (msg : string)                 (* ioutil.ReadAll *)
  | json_SyntaxError                        (* encoding/json: *SyntaxError *)
  | json_UnmarshalTypeError (field : string) (* encoding/json: *UnmarshalTypeError *)
  | time_ParseError (text : string)         (* time: *ParseError, from Time.UnmarshalJSON *)
  | errors_New (msg : string)               (* github.com/pkg/errors.New *)
  | fmt_Errorf (msg : string).              (* fmt.Errorf *)

(** What a library call that follows the [(ptr, err)] convention gives:
    a value with a nil error, or nil with an error. *)
Inductive result (A : Type) : Type :=
  | Ok (a : A)
  | Err (e : error).
Arguments Ok {A} a.
Arguments Err {A} e.

Inductive panic : Type :=
  | nil_pointer_dereference.

(** The ways a call can end.  [OutOfFuel] is the model's own: the
    recursion over pages is bounded by the server only. *)
Inductive Run (A : Type) : Type :=
  | Returns (a : A)
  | Panics (p : panic)
  | OutOfFuel.
Arguments Returns {A} a.
Arguments Panics {A} p.
Arguments OutOfFuel {A}.

(** ** Package strings (and fmt) *)

Module GoStrings.

(** [strings.HasPrefix]. *)
Fixpoint HasPrefix (s prefix : string) : bool :=
  match prefix, s with
  | EmptyString, _ => true
  | String _ _, EmptyString => false
  | String a prefix', String b s' => Ascii.eqb a b && HasPrefix s' prefix'
  end.

(** [strings.HasSuffix]: some tail of [s] is [suffix]. *)
Fixpoint HasSuffix (s suffix : string) : bool :=
  String.eqb s suffix ||
  match s with
  | EmptyString => false
  | String _ s' => HasSuffix s' suffix
  end.

(** [strings.IndexByte] as a split: the text before the first [c] and
    the text after it. *)
Fixpoint CutByte (s : string) (c : ascii) : option (string * string) :=
  match s with
  | EmptyString => None
  | String a s' =>
      if Ascii.eqb a c then Some (EmptyString, s')
      else match CutByte s' c with
           | Some (before, after) => Some (String a before, after)
           | None => None
           end
  end.

(** The same at the last [c]. *)
Fixpoint CutLastByte (s : string) (c : ascii) : option (string * string) :=
  match s with
  | EmptyString => None
  | String a s' =>
      match CutLastByte s' c with
      | Some (before, after) => Some (String a before, after)
      | None => if Ascii.eqb a c then Some (EmptyString, s') else None
      end
  end.

Definition ContainsByte (s : string) (c : ascii) : bool :=
  match CutByte s c with Some _ => true | None => false end.

Fixpoint all (p : ascii -> bool) (s : string) : bool :=
  match s with
  | EmptyString => true
  | String a s' => p a && all p s'
  end.

Fixpoint map (f : ascii -> ascii) (s : string) : string :=
  match s with
  | EmptyString => EmptyString
  | String a s' => String (f a) (map f s')
  end.

Definition between (lo hi c : ascii) : bool :=
  (N.leb (N_of_ascii lo) (N_of_ascii c) && N.leb (N_of_ascii c) (N_of_ascii hi))%N.

Definition isLower (c : ascii) : bool := between "a" "z" c.
Definition isUpper (c : ascii) : bool := between "A" "Z" c.
Definition isDigit (c : ascii) : bool := between "0" "9" c.
Definition isAlnum (c : ascii) : bool := isLower c || isUpper c || isDigit c.

Definition toLower (c : ascii) : ascii :=
  if isUpper c then ascii_of_N (N_of_ascii c + 32) else c.
Definition toUpper (c : ascii) : ascii :=
  if isLower c then ascii_of_N (N_of_ascii c - 32) else c.

Definition ToLower : string -> string := map toLower.

(** [c] is one of the bytes of [set]. *)
Definition oneOf (set : string) (c : ascii) : bool := ContainsByte set c.

(** The byte 0x22, the double quote. *)
Definition dquote : ascii := ascii_of_N 34.

End GoStrings.

(** ** Package net/url: the URL value, escaping and [url.Values] *)

Module url.
Import GoStrings.

Record Userinfo : Type := {
  username : string;
  password : option string
}.

Record URL : Type := {
  Scheme : string;
  Opaque : string;
  User : option Userinfo;
  Host : string;
  Path : string;
  RawPath : string;
  ForceQuery : bool;
  RawQuery : string;
  Fragment : string;
  RawFragment : string
}.

(** The assignment [u.RawQuery = q]. *)
Definition set_RawQuery (u : URL) (q : string) : URL :=
  {| Scheme := Scheme u; Opaque := Opaque u; User := User u; Host := Host u;
     Path := Path u; RawPath := RawPath u; ForceQuery := ForceQuery u;
     RawQuery := q; Fragment := Fragment u; RawFragment := RawFragment u |}.

Definition set_Host (u : URL) (h : string) : URL :=
  {| Scheme := Scheme u; Opaque := Opaque u; User := User u; Host := h;
     Path := Path u; RawPath := RawPath u; ForceQuery := ForceQuery u;
     RawQuery := RawQuery u; Fragment := Fragment u; RawFragment := RawFragment u |}.

Inductive encoding : Type :=
  | encodePath
  | encodePathSegment
  | encodeHost
  | encodeUserPassword
  | encodeQueryComponent
  | encodeFragment.

(** [encodeZone], for the zone of an IPv6 literal, is left out. *)
Definition is_host_mode (mode : encoding) : bool :=
  match mode with encodeHost => true | _ => false end.

(** [shouldEscape]: must byte [c] be %-escaped in the part [mode]? *)
Definition shouldEscape (c : ascii) (mode : encoding) : bool :=
  if isAlnum c then false
  else if is_host_mode mode && (oneOf "!$&'()*+,;=:[]<>" c || Ascii.eqb c dquote) then false
  else if oneOf "-_.~" c then false
  else if oneOf "$&+,/:;=?@" c then
    match mode with
    | encodePath => Ascii.eqb c "?"
    | encodePathSegment => oneOf "/;,?" c
    | encodeUserPassword => oneOf "@/?:" c
    | encodeQueryComponent => true
    | encodeFragment => false
    | encodeHost => true
    end
  else if match mode with encodeFragment => oneOf "!()*" c | _ => false end then false
  else true.

Definition upperhex (n : N) : ascii :=
  match String.get (N.to_nat n) "0123456789ABCDEF" with
  | Some c => c
  | None => "F"%char
  end.

(** One byte of [escape]'s output loop. *)
Definition escape_byte (c : ascii) (mode : encoding) : string :=
  if shouldEscape c mode then
    if Ascii.eqb c " " && match mode with encodeQueryComponent => true | _ => false end
    then "+"
    else String "%" (String (upperhex (N.shiftr (N_of_ascii c) 4))
                       (String (upperhex (N.land (N_of_ascii c) 15)) ""))
  else String c "".

Fixpoint escape (s : string) (mode : encoding) : string :=
  match s with
  | EmptyString => ""
  | String c s' => escape_byte c mode +:+ escape s' mode
  end.

Definition QueryEscape (s : string) : string := escape s encodeQueryComponent.

Definition ishex (c : ascii) : bool :=
  isDigit c || between "a" "f" c || between "A" "F" c.

Definition unhex (c : ascii) : N :=
  (if isDigit c then N_of_ascii c - 48
   else if between "a" "f" c then N_of_ascii c - 97 + 10
   else if between "A" "F" c then N_of_ascii c - 65 + 10
   else 0)%N.

(** [unescape]: [None] stands for its [EscapeError] and
    [InvalidHostError]. *)
Fixpoint unescape (s : string) (mode : encoding) : option string :=
  match s with
  | EmptyString => Some ""
  | String "%" (String h (String l s')) =>
      if ishex h && ishex l then
        if is_host_mode mode && N.ltb (unhex h) 8
           && negb (Ascii.eqb h "2" && Ascii.eqb l "5")
        then None
        else String (ascii_of_N (unhex h * 16 + unhex l)) <$> unescape s' mode
      else None
  | String "%" _ => None
  | String c s' =>
      if Ascii.eqb c "+" && match mode with encodeQueryComponent => true | _ => false end
      then String " " <$> unescape s' mode
      else if is_host_mode mode && N.ltb (N_of_ascii c) 128 && shouldEscape c encodeHost
      then None
      else String c <$> unescape s' mode
  end.

Definition QueryUnescape (s : string) : option string :=
  unescape s encodeQueryComponent.

(** [url.Values] is [map[string][]string]. *)
Abbreviation Values := (gmap string (list string)).

(** [Values.Add]: [v[key] = append(v[key], value)]. *)
Definition Add (v : Values) (key value : string) : Values :=
  <[key := default [] (v !! key) ++ [value]]> v.

(** [sort.Strings] orders by bytes. *)
Definition string_le (a b : string) : Prop := String.leb a b = true.

#[global] Instance string_le_dec : RelDecision string_le :=
  fun a b => decide (String.leb a b = true).

Definition sort_Strings (keys : list string) : list string :=
  merge_sort string_le keys.

(** [Values.Encode]: the keys sorted, each value as [key=value], both
    query-escaped, joined by [&]. *)
Definition Encode (v : Values) : string :=
  String.concat "&"
    (k ← sort_Strings (fst <$> map_to_list v);
     (fun value => QueryEscape k +:+ "=" +:+ QueryEscape value)
       <$> default [] (v !! k)).

End url.

(** ** Package encoding/json: decoding a parsed document into Go values *)

Module json.
Import GoStrings.

#[local] Set Warnings "-register-all".

(** A JSON document as the scanner has read it; the members of an object
    in the order of the text, a repeated key kept each time. *)
Inductive value : Type :=
  | Null
  | Bool (b : bool)
  | Number (literal : string)
  | Str (s : string)
  | Array (elements : list value)
  | Object (members : list (string * value)).

(** [d.saveError]: only the first error is kept. *)
Definition saveError (saved : option error) (e : error) : option error :=
  match saved with
  | Some _ => saved
  | None => Some e
  end.

(** Storing a JSON value into a destination of type [D]: the new
    destination with the saved error so far, or the error the decoder
    stopped at ([Unmarshaler] errors stop it, type mismatches are saved
    and the decoding goes on). *)
Definition store (D : Type) : Type :=
  value -> D -> option error -> result (D * option error).

(** Into a Go [string]: [null] leaves it as it is. *)
Definition store_string (field : string) : store string :=
  fun v dest saved =>
    match v with
    | Null => Ok (dest, saved)
    | Str s => Ok (s, saved)
    | _ => Ok (dest, saveError saved (json_UnmarshalTypeError field))
    end.

(** Into a Go [*string]: [null] sets the pointer to nil; any other value
    allocates when the pointer is nil, also when its type is wrong. *)
Definition store_string_ptr (field : string) : store (option string) :=
  fun v dest saved =>
    match v with
    | Null => Ok (None, saved)
    | Str s => Ok (Some s, saved)
    | _ => Ok (Some (default "" dest), saveError saved (json_UnmarshalTypeError field))
    end.

(** The key comparison of the struct decoder, on ASCII letters. *)
Definition equalFold (a b : string) : bool :=
  String.eqb (ToLower a) (ToLower b).

Record field (D : Type) : Type := {
  name : string;
  store_field : store D
}.
Arguments name {D} f.
Arguments store_field {D} f.

(** The field a key selects: the one of that exact name, else the first
    one equal to it up to case. *)
Definition find_field {D} (fields : list (field D)) (key : string) : option (field D) :=
  match List.find (fun f => String.eqb (name f) key) fields with
  | Some f => Some f
  | None => List.find (fun f => equalFold (name f) key) fields
  end.

(** [d.object] on a struct: the members in order, unknown keys skipped. *)
Fixpoint object_members {D} (fields : list (field D))
    (members : list (string * value)) (dest : D) (saved : option error)
    : result (D * option error) :=
  match members with
  | [] => Ok (dest, saved)
  | (key, v) :: rest =>
      match find_field fields key with
      | None => object_members fields rest dest saved
      | Some f =>
          match store_field f v dest saved with
          | Err e => Err e
          | Ok (dest', saved') => object_members fields rest dest' saved'
          end
      end
  end.

Definition store_struct {D} (type : string) (fields : list (field D)) : store D :=
  fun v dest saved =>
    match v with
    | Object members => object_members fields members dest saved
    | Null => Ok (dest, saved)
    | _ => Ok (dest, saveError saved (json_UnmarshalTypeError type))
    end.

(** [d.array] on a slice: element [i] is decoded onto what the slice
    holds at [i], a zero value past its end. *)
Fixpoint array_elements {E} (store_element : store E) (zero : E)
    (elements : list value) (old : list E) (saved : option error)
    : result (list E * option error) :=
  match elements with
  | [] => Ok ([], saved)
  | v :: elements' =>
      match store_element v (hd zero old) saved with
      | Err e => Err e
      | Ok (e1, saved1) =>
          match array_elements store_element zero elements' (tl old) saved1 with
          | Err e => Err e
          | Ok (es, saved2) => Ok (e1 :: es, saved2)
          end
      end
  end.

Definition store_slice {E} (field : string) (store_element : store E) (zero : E)
    : store (list E) :=
  fun v dest saved =>
    match v with
    | Array elements => array_elements store_element zero elements dest saved
    | Null => Ok ([], saved)
    | _ => Ok (dest, saveError saved (json_UnmarshalTypeError field))
    end.

(** [json.Unmarshal(data, &dest)]: the destination after the call and
    the error.  [scan] is the syntax check and parse of the text. *)
Definition Unmarshal {D} (scan : string -> option value) (st : store D)
    (data : string) (dest : D) : D * option error :=
  match scan data with
  | None => (dest, Some json_SyntaxError)
  | Some v =>
      match st v dest None with
      | Err e => (dest, Some e)
      | Ok (dest', saved) => (dest', saved)
      end
  end.

End json.

(** ** Package net/http: headers, requests and responses *)

Module http.
Import GoStrings.

(** [http.Header] is [map[string][]string]. *)
Abbreviation Header := (gmap string (list string)).

(** The token bytes of RFC 7230. *)
Definition validHeaderFieldByte (c : ascii) : bool :=
  isAlnum c || oneOf "!#$%&'*+-.^_`|~" c.

(** The loop of [canonicalMIMEHeaderKey]: upper case at the start and
    after each dash, lower case elsewhere. *)
Fixpoint canonical (upper : bool) (s : string) : string :=
  match s with
  | EmptyString => EmptyString
  | String c s' =>
      let c' := if upper then toUpper c else toLower c in
      String c' (canonical (Ascii.eqb c' "-") s')
  end.

(** [textproto.CanonicalMIMEHeaderKey]: a key with a byte that is no
    token byte is returned as it is. *)
Definition CanonicalMIMEHeaderKey (s : string) : string :=
  if all validHeaderFieldByte s then canonical true s else s.

(** [Header.Add]. *)
Definition Add (h : Header) (key value : string) : Header :=
  <[CanonicalMIMEHeaderKey key := default [] (h !! CanonicalMIMEHeaderKey key) ++ [value]]> h.

(** [Header.Values]. *)
Definition Values (h : Header) (key : string) : list string :=
  default [] (h !! CanonicalMIMEHeaderKey key).

(** [Header.Get]: the first value of the key, or the empty string. *)
Definition Get (h : Header) (key : string) : string :=
  hd "" (Values h key).

(** The fields of [http.Request] a request without a body has. *)
Record Request : Type := {
  Method : string;
  URL : url.URL;
  Header_ : Header;
  Host : string
}.

Definition Request_Header_Add (req : Request) (key value : string) : Request :=
  {| Method := Method req; URL := URL req;
     Header_ := Add (Header_ req) key value; Host := Host req |}.

(** A response: the status code, and what reading the body to its end
    gives. *)
Record Response : Type := {
  StatusCode : Z;
  Body : result string
}.

Definition validMethod (method : string) : bool :=
  negb (String.eqb method "") && all validHeaderFieldByte method.

(** [removeEmptyPort]: a host that ends in a colon loses it. *)
Definition removeEmptyPort (host : string) : string :=
  match CutLastByte host ":" with
  | Some (before, after) =>
      if ContainsByte after "]" then host
      else if String.eqb after "" then before else host
  | None => host
  end.

(** [http.NewRequest(method, url, nil)], over the [url.Parse] given. *)
Definition NewRequest (url_Parse : string -> result url.URL)
    (method urlStr : string) : result Request :=
  let method := if String.eqb method "" then "GET" else method in
  if validMethod method then
    match url_Parse urlStr with
    | Err err => Err err
    | Ok u =>
        let u := url.set_Host u (removeEmptyPort (url.Host u)) in
        Ok {| Method := method; URL := u; Header_ := ∅; Host := url.Host u |}
    end
  else Err (http_Error ("net/http: invalid method " +:+ method)).

End http.

(** ** The runtime the client runs on *)

(** The library calls whose results the client only passes on: URL
    parsing, resolution and printing, the JSON scanner, the decoding of
    [time.Time], and the network behind the zero [http.Client].  [World]
    is the state of that network. *)
Class Runtime : Type := {
  World : Type;
  Time : Type;
  Time_zero : Time;
  (* Time.UnmarshalJSON, on the value the decoder is at *)
  Time_UnmarshalJSON : json.value -> Time -> result Time;
  (* url.Parse *)
  url_Parse : string -> result url.URL;
  (* URL.Parse: parse the reference, resolve it against the receiver *)
  URL_Parse : url.URL -> string -> result url.URL;
  (* URL.String *)
  URL_String : url.URL -> string;
  (* the scanner of encoding/json: None when the text is not valid JSON *)
  json_scan : string -> option json.value;
  (* Client.Do of the zero http.Client *)
  http_Client_Do : http.Request -> World -> result http.Response * World
}.

Section RestClient.

Context {runtime : Runtime}.

(** A computation that talks to the network. *)
Definition IO (A : Type) : Type := World -> Run (A * World).

Definition ret {A} (a : A) : IO A := fun w => Returns (a, w).

Definition bind {A B} (m : IO A) (k : A -> IO B) : IO B :=
  fun w =>
    match m w with
    | Returns (a, w') => k a w'
    | Panics p => Panics p
    | OutOfFuel => OutOfFuel
    end.

(** A call that does not touch the network. *)
Definition pure {A} (r : Run A) : IO A :=
  fun w =>
    match r with
    | Returns a => Returns (a, w)
    | Panics p => Panics p
    | OutOfFuel => OutOfFuel
    end.

Definition throw {A} (p : panic) : IO A := fun _ => Panics p.

#[global] Instance IO_ret : MRet IO := @ret.
#[global] Instance IO_bind : MBind IO := fun A B k m => bind m k.

(** A pointer to an [http.Client], through its method [Do]. *)
Definition http_Client : Type := http.Request -> World -> result http.Response * World.

Record Client : Type := {
  token : string;
  server : string;
  client : http_Client
}.

(** [client.Do(req)]; a nil request or client never reaches it. *)
Definition Do (client : http_Client) (req : http.Request) : IO (result http.Response) :=
  fun w => let '(r, w') := client req w in Returns (r, w').

Record Context : Type := {
  CreatedAt : Time;
  ID : string;
  Name : string
}.

Record listContextsParams : Type := {
  OwnerID : option string;
  OwnerSlug : option string;
  OwnerType : option string;
  PageToken : option string
}.

(** The unexported fields [client] and [params] are [of_client] and
    [of_params] here: a record cannot reuse the name of [Client]'s field. *)
Record listContextsResponse : Type := {
  Items : list Context;
  NextPageToken : option string;
  of_client : Client;
  of_params : listContextsParams
}.

Record ErrorResponse : Type := {
  Message : option string
}.

(** *** The field mappings of the structs, as [json.Unmarshal] sees them *)

Definition set_Message (dest : ErrorResponse) (m : option string) : ErrorResponse :=
  {| Message := m |}.

(** One exported field, tagged [message]. *)
Definition store_ErrorResponse : json.store ErrorResponse :=
  json.store_struct "ErrorResponse"
    [ {| json.name := "message";
         json.store_field := fun v dest saved =>
           match json.store_string_ptr "message" v (Message dest) saved with
           | Err e => Err e
           | Ok (m, saved') => Ok (set_Message dest m, saved')
           end |} ].

Definition zero_Context : Context :=
  {| CreatedAt := Time_zero; ID := ""; Name := "" |}.

(** [time.Time] decodes itself; its error stops the decoder. *)
Definition store_Time : json.store Time :=
  fun v dest saved =>
    match Time_UnmarshalJSON v dest with
    | Err e => Err e
    | Ok t => Ok (t, saved)
    end.

Definition store_Context : json.store Context :=
  json.store_struct "Context"
    [ {| json.name := "created_at";
         json.store_field := fun v dest saved =>
           match store_Time v (CreatedAt dest) saved with
           | Err e => Err e
           | Ok (t, saved') =>
               Ok ({| CreatedAt := t; ID := ID dest; Name := Name dest |}, saved')
           end |};
      {| json.name := "id";
         json.store_field := fun v dest saved =>
           match json.store_string "id" v (ID dest) saved with
           | Err e => Err e
           | Ok (s, saved') =>
               Ok ({| CreatedAt := CreatedAt dest; ID := s; Name := Name dest |}, saved')
           end |};
      {| json.name := "name";
         json.store_field := fun v dest saved =>
           match json.store_string "name" v (Name dest) saved with
           | Err e => Err e
           | Ok (s, saved') =>
               Ok ({| CreatedAt := CreatedAt dest; ID := ID dest; Name := s |}, saved')
           end |} ].

(** [Items] has no tag and goes by its name; [client] and [params] are
    unexported and never decoded. *)
Definition store_listContextsResponse : json.store listContextsResponse :=
  json.store_struct "listContextsResponse"
    [ {| json.name := "Items";
         json.store_field := fun v dest saved =>
           match json.store_slice "Items" store_Context zero_Context v (Items dest) saved with
           | Err e => Err e
           | Ok (items, saved') =>
               Ok ({| Items := items; NextPageToken := NextPageToken dest;
                      of_client := of_client dest; of_params := of_params dest |}, saved')
           end |};
      {| json.name := "next_page_token";
         json.store_field := fun v dest saved =>
           match json.store_string_ptr "next_page_token" v (NextPageToken dest) saved with
           | Err e => Err e
           | Ok (t, saved') =>
               Ok ({| Items := Items dest; NextPageToken := t;
                      of_client := of_client dest; of_params := of_params dest |}, saved')
           end |} ].

(** *** The client *)

(** The assignment [params.PageToken = t].  The source writes through
    the pointer it was given; the object is made afresh by [Contexts] and
    [ContextByName] for each call and read by nobody after the
    traversal, so the new value is passed on instead. *)
Definition set_PageToken (params : listContextsParams) (t : option string)
    : listContextsParams :=
  {| OwnerID := OwnerID params; OwnerSlug := OwnerSlug params;
     OwnerType := OwnerType params; PageToken := t |}.

Definition toSlug (org vcs : string) : string :=
  vcs +:+ "/" +:+ org.

Definition newHTTPRequest (c : Client) (method url : string)
    : option http.Request * option error :=
  match http.NewRequest url_Parse method url with
  | Err err => (None, Some err)
  | Ok req =>
      let req := http.Request_Header_Add req "circle-token" (token c) in
      let req := http.Request_Header_Add req "Accept" "application/json" in
      (Some req, None)
  end.

(** The result of [queryURL.Parse] is assigned without a look at its
    error: when it failed, [queryURL] is nil and [queryURL.String()]
    dereferences it. *)
Definition newDeleteContextRequest (c : Client) (contextID : string)
    : Run (option http.Request * option error) :=
  match url_Parse (server c) with
  | Err err => Returns (None, Some err)
  | Ok queryURL =>
      match URL_Parse queryURL ("context/" +:+ contextID) with
      | Err _ => Panics nil_pointer_dereference
      | Ok queryURL => Returns (newHTTPRequest c "DELETE" (URL_String queryURL))
      end
  end.

(** The four optional parameters, each added when it is not nil. *)
Definition urlParams (params : listContextsParams) : url.Values :=
  let urlParams : url.Values := ∅ in
  let urlParams :=
    match OwnerID params with
    | Some v => url.Add urlParams "owner-id" v
    | None => urlParams
    end in
  let urlParams :=
    match OwnerSlug params with
    | Some v => url.Add urlParams "owner-slug" v
    | None => urlParams
    end in
  let urlParams :=
    match OwnerType params with
    | Some v => url.Add urlParams "owner-type" v
    | None => urlParams
    end in
  match PageToken params with
  | Some v => url.Add urlParams "page-token" v
  | None => urlParams
  end.

Definition newListContextsRequest (c : Client) (params : listContextsParams)
    : Run (option http.Request * option error) :=
  match url_Parse (server c) with
  | Err err => Returns (None, Some err)
  | Ok queryURL =>
      match URL_Parse queryURL "context" with
      | Err err => Returns (None, Some err)
      | Ok queryURL =>
          let queryURL := url.set_RawQuery queryURL (url.Encode (urlParams params)) in
          Returns (newHTTPRequest c "GET" (URL_String queryURL))
      end
  end.

Definition DeleteContext (c : Client) (contextID : string) : IO (option error) :=
  '(req, err) ← pure (newDeleteContextRequest c contextID);
  match err, req with
  | Some err, _ => ret (Some err)
  | None, None => throw nil_pointer_dereference
  | None, Some req =>
      r ← Do (client c) req;
      match r with
      | Err err => ret (Some err)
      | Ok resp =>
          match http.Body resp with
          | Err err => ret (Some err)
          | Ok bodyBytes =>
              if negb (http.StatusCode resp =? 200)%Z then
                let dest := {| Message := None |} in
                let '(dest, err) :=
                  json.Unmarshal json_scan store_ErrorResponse bodyBytes dest in
                match err with
                | Some err => ret (Some err)
                | None =>
                    match Message dest with
                    | None => throw nil_pointer_dereference
                    | Some message => ret (Some (errors_New message))
                    end
                end
              else ret None
          end
      end
  end.

Definition listContexts (c : Client) (params : listContextsParams)
    : IO (option listContextsResponse * option error) :=
  '(req, err) ← pure (newListContextsRequest c params);
  match err, req with
  | Some err, _ => ret (None, Some err)
  | None, None => throw nil_pointer_dereference
  | None, Some req =>
      r ← Do (client c) req;
      match r with
      | Err err => ret (None, Some err)
      | Ok resp =>
          match http.Body resp with
          | Err err => ret (None, Some err)
          | Ok bodyBytes =>
              if negb (http.StatusCode resp =? 200)%Z then
                let dest := {| Message := None |} in
                let '(dest, err) :=
                  json.Unmarshal json_scan store_ErrorResponse bodyBytes dest in
                match err with
                | Some err => ret (None, Some err)
                | None =>
                    match Message dest with
                    | None => throw nil_pointer_dereference
                    | Some message => ret (None, Some (errors_New message))
                    end
                end
              else
                let dest := {| Items := []; NextPageToken := None;
                               of_client := c; of_params := params |} in
                let '(dest, err) :=
                  json.Unmarshal json_scan store_listContextsResponse bodyBytes dest in
                match err with
                | Some err => ret (None, Some err)
                | None => ret (Some dest, None)
                end
          end
      end
  end.

(** [fuel] bounds the depth of the recursion, which the source leaves to
    the server's tokens. *)
Fixpoint listAllContexts (fuel : nat) (c : Client) (params : listContextsParams)
    : IO (list Context * option error) :=
  match fuel with
  | O => fun _ => OutOfFuel
  | S fuel =>
      '(resp, err) ← listContexts c params;
      match err, resp with
      | Some err, _ => ret ([], Some err)
      | None, None => throw nil_pointer_dereference
      | None, Some resp =>
          let contexts := Items resp in
          match NextPageToken resp with
          | Some _ =>
              let params := set_PageToken params (NextPageToken resp) in
              '(after, err) ← listAllContexts fuel c params;
              match err with
              | Some err => ret ([], Some err)
              | None => ret (contexts ++ after, None)
              end
          | None => ret (contexts, None)
          end
      end
  end.

Fixpoint getContextByName (fuel : nat) (c : Client) (params : listContextsParams)
    (name : string) : IO (option Context * option error) :=
  match fuel with
  | O => fun _ => OutOfFuel
  | S fuel =>
      '(resp, err) ← listContexts c params;
      match err, resp with
      | Some err, _ => ret (None, Some err)
      | None, None => throw nil_pointer_dereference
      | None, Some resp =>
          match List.find (fun context => String.eqb (Name context) name) (Items resp) with
          | Some context => ret (Some context, None)
          | None =>
              match NextPageToken resp with
              | Some _ =>
                  let params := set_PageToken params (NextPageToken resp) in
                  '(context, err) ← getContextByName fuel c params name;
                  match err with
                  | Some err => ret (None, Some err)
                  | None => ret (context, None)
                  end
              | None =>
                  ret (None, Some (fmt_Errorf ("Cannot find context named '" +:+ name +:+ "'")))
              end
          end
      end
  end.

(** [Contexts] returns the address of its slice with the error: the
    first half is what that pointer points to. *)
Definition Contexts (fuel : nat) (c : Client) (org vcs : string)
    : IO (list Context * option error) :=
  let slug := toSlug org vcs in
  listAllContexts fuel c
    {| OwnerID := None; OwnerSlug := Some slug; OwnerType := None; PageToken := None |}.

Definition ContextByName (fuel : nat) (c : Client) (org vcs name : string)
    : IO (option Context * option error) :=
  let slug := toSlug org vcs in
  getContextByName fuel c
    {| OwnerID := None; OwnerSlug := Some slug; OwnerType := None; PageToken := None |}
    name.

Definition NewClient (server token : string) : Client :=
  let server :=
    if negb (GoStrings.HasSuffix server "/") then server +:+ "/" else server in
  {| token := token; server := server; client := http_Client_Do |}.

End RestClient.

(** ** A reference runtime

    An executable reading of the library calls, after the Go sources of
    [net/url] (before the [OmitHost] field), [encoding/json] and [time].
    What it leaves out is said at each definition. *)

Module Ref.
Import GoStrings.

(** *** net/url *)

(** [strings.Cut] on a byte: without the separator the whole text and
    the empty string. *)
Definition Cut (s : string) (sep : ascii) : string * string :=
  match CutByte s sep with
  | Some p => p
  | None => (s, "")
  end.

(** [strings.Index] on a text, as a split around its first occurrence. *)
Fixpoint CutStr (s sep : string) : option (string * string) :=
  if HasPrefix s sep then Some ("", String.substring (String.length sep) (String.length s) s)
  else
    match s with
    | EmptyString => None
    | String a s' =>
        match CutStr s' sep with
        | Some (before, after) => Some (String a before, after)
        | None => None
        end
    end.

Definition stringContainsCTLByte (s : string) : bool :=
  negb (all (fun c => negb (N.ltb (N_of_ascii c) 32 || N.eqb (N_of_ascii c) 127)) s).

(** The loop of [getScheme] up to a colon: the scheme before it and the
    rest after it; [None] when a byte that no scheme has comes first. *)
Fixpoint scanScheme (first : bool) (s : string) : option (string * string) :=
  match s with
  | EmptyString => None
  | String c s' =>
      if isLower c || isUpper c then
        (fun '(scheme, rest) => (String c scheme, rest)) <$> scanScheme false s'
      else if isDigit c || oneOf "+-." c then
        if first then None
        else (fun '(scheme, rest) => (String c scheme, rest)) <$> scanScheme false s'
      else if Ascii.eqb c ":" then Some ("", s')
      else None
  end.

Definition getScheme (rawURL : string) : result (string * string) :=
  if HasPrefix rawURL ":" then Err (url_Error "missing protocol scheme")
  else
    match scanScheme true rawURL with
    | Some (scheme, rest) => Ok (scheme, rest)
    | None => Ok ("", rawURL)
    end.

Definition validOptionalPort (port : string) : bool :=
  match port with
  | EmptyString => true
  | String c digits => Ascii.eqb c ":" && all isDigit digits
  end.

(** [parseHost].  An IP literal with a zone ([%25]) is not read here: it
    is decoded as a host without one. *)
Definition parseHost (host : string) : result string :=
  let port_ok :=
    if HasPrefix host "[" then
      match CutLastByte host "]" with
      | None => Err (url_Error "missing ']' in host")
      | Some (_, colonPort) =>
          if validOptionalPort colonPort then Ok tt
          else Err (url_Error "invalid port after host")
      end
    else
      match CutLastByte host ":" with
      | None => Ok tt
      | Some (_, port) =>
          if all isDigit port then Ok tt
          else Err (url_Error "invalid port after host")
      end in
  match port_ok with
  | Err e => Err e
  | Ok _ =>
      match url.unescape host url.encodeHost with
      | Some host => Ok host
      | None => Err (url_Error "invalid URL escape or host")
      end
  end.

Definition validUserinfo (s : string) : bool :=
  all (fun c => isAlnum c || oneOf "-._:~!$&'()*+,;=%@" c) s.

Definition parseAuthority (authority : string) : result (option url.Userinfo * string) :=
  match CutLastByte authority "@" with
  | None =>
      match parseHost authority with
      | Err e => Err e
      | Ok host => Ok (None, host)
      end
  | Some (userinfo, host) =>
      match parseHost host with
      | Err e => Err e
      | Ok host =>
          if negb (validUserinfo userinfo) then Err (url_Error "net/url: invalid userinfo")
          else
            match CutByte userinfo ":" with
            | None =>
                match url.unescape userinfo url.encodeUserPassword with
                | None => Err (url_Error "invalid URL escape")
                | Some username =>
                    Ok (Some {| url.username := username; url.password := None |}, host)
                end
            | Some (username, password) =>
                match url.unescape username url.encodeUserPassword,
                      url.unescape password url.encodeUserPassword with
                | Some username, Some password =>
                    Ok (Some {| url.username := username; url.password := Some password |},
                        host)
                | _, _ => Err (url_Error "invalid URL escape")
                end
            end
      end
  end.

(** [setPath]: the decoded path, and the raw one when the default
    encoding of the decoded path differs from it. *)
Definition setPath (u : url.URL) (p : string) : result url.URL :=
  match url.unescape p url.encodePath with
  | None => Err (url_Error "invalid URL escape")
  | Some path =>
      Ok {| url.Scheme := url.Scheme u; url.Opaque := url.Opaque u; url.User := url.User u;
            url.Host := url.Host u; url.Path := path;
            url.RawPath := if String.eqb p (url.escape path url.encodePath) then "" else p;
            url.ForceQuery := url.ForceQuery u; url.RawQuery := url.RawQuery u;
            url.Fragment := url.Fragment u; url.RawFragment := url.RawFragment u |}
  end.

Definition setFragment (u : url.URL) (f : string) : result url.URL :=
  match url.unescape f url.encodeFragment with
  | None => Err (url_Error "invalid URL escape")
  | Some frag =>
      Ok {| url.Scheme := url.Scheme u; url.Opaque := url.Opaque u; url.User := url.User u;
            url.Host := url.Host u; url.Path := url.Path u; url.RawPath := url.RawPath u;
            url.ForceQuery := url.ForceQuery u; url.RawQuery := url.RawQuery u;
            url.Fragment := frag;
            url.RawFragment :=
              if String.eqb f (url.escape frag url.encodeFragment) then "" else f |}
  end.

Definition empty_URL : url.URL :=
  {| url.Scheme := ""; url.Opaque := ""; url.User := None; url.Host := "";
     url.Path := ""; url.RawPath := ""; url.ForceQuery := false; url.RawQuery := "";
     url.Fragment := ""; url.RawFragment := "" |}.

(** The number of bytes [c] in [s]. *)
Fixpoint Count (s : string) (c : ascii) : nat :=
  match s with
  | EmptyString => 0
  | String a s' => (if Ascii.eqb a c then 1 else 0) + Count s' c
  end.

(** [parse(rawURL, false)]: the URL without its fragment. *)
Definition parse (rawURL : string) : result url.URL :=
  if stringContainsCTLByte rawURL
  then Err (url_Error "net/url: invalid control character in URL")
  else if String.eqb rawURL "*" then
    Ok {| url.Scheme := ""; url.Opaque := ""; url.User := None; url.Host := "";
          url.Path := "*"; url.RawPath := ""; url.ForceQuery := false; url.RawQuery := "";
          url.Fragment := ""; url.RawFragment := "" |}
  else
    match getScheme rawURL with
    | Err e => Err e
    | Ok (scheme, rest) =>
        let scheme := ToLower scheme in
        let '(rest, forceQuery, rawQuery) :=
          if HasSuffix rest "?" && Nat.eqb (Count rest "?") 1
          then (fst (Cut rest "?"), true, "")
          else (fst (Cut rest "?"), false, snd (Cut rest "?")) in
        let u :=
          {| url.Scheme := scheme; url.Opaque := ""; url.User := None; url.Host := "";
             url.Path := ""; url.RawPath := ""; url.ForceQuery := forceQuery;
             url.RawQuery := rawQuery; url.Fragment := ""; url.RawFragment := "" |} in
        if negb (HasPrefix rest "/") && negb (String.eqb scheme "") then
          Ok {| url.Scheme := scheme; url.Opaque := rest; url.User := None; url.Host := "";
                url.Path := ""; url.RawPath := ""; url.ForceQuery := forceQuery;
                url.RawQuery := rawQuery; url.Fragment := ""; url.RawFragment := "" |}
        else if negb (HasPrefix rest "/") && ContainsByte (fst (Cut rest "/")) ":" then
          Err (url_Error "first path segment in URL cannot contain colon")
        else if (negb (String.eqb scheme "") || negb (HasPrefix rest "///"))
                && HasPrefix rest "//" then
          let authority := String.substring 2 (String.length rest) rest in
          let '(authority, rest) :=
            match CutByte authority "/" with
            | Some (authority, after) => (authority, String "/" after)
            | None => (authority, "")
            end in
          match parseAuthority authority with
          | Err e => Err e
          | Ok (user, host) =>
              setPath
                {| url.Scheme := scheme; url.Opaque := ""; url.User := user; url.Host := host;
                   url.Path := ""; url.RawPath := ""; url.ForceQuery := forceQuery;
                   url.RawQuery := rawQuery; url.Fragment := ""; url.RawFragment := "" |}
                rest
          end
        else setPath u rest
    end.

(** [url.Parse]. *)
Definition Parse (rawURL : string) : result url.URL :=
  let '(u, frag) := Cut rawURL "#" in
  match parse u with
  | Err e => Err e
  | Ok u => if String.eqb frag "" then Ok u else setFragment u frag
  end.

Definition validEncoded (s : string) (mode : url.encoding) : bool :=
  all (fun c => oneOf "!$&'()*+,;=:@[]%" c || negb (url.shouldEscape c mode)) s.

Definition EscapedPath (u : url.URL) : string :=
  if negb (String.eqb (url.RawPath u) "") && validEncoded (url.RawPath u) url.encodePath
     && match url.unescape (url.RawPath u) url.encodePath with
        | Some p => String.eqb p (url.Path u)
        | None => false
        end
  then url.RawPath u
  else if String.eqb (url.Path u) "*" then "*"
  else url.escape (url.Path u) url.encodePath.

Definition EscapedFragment (u : url.URL) : string :=
  if negb (String.eqb (url.RawFragment u) "")
     && validEncoded (url.RawFragment u) url.encodeFragment
     && match url.unescape (url.RawFragment u) url.encodeFragment with
        | Some f => String.eqb f (url.Fragment u)
        | None => false
        end
  then url.RawFragment u
  else url.escape (url.Fragment u) url.encodeFragment.

(** [strings.Split(s, "/")]. *)
Fixpoint Split (s : string) : list string :=
  match s with
  | EmptyString => [""]
  | String c s' =>
      if Ascii.eqb c "/" then "" :: Split s'
      else
        match Split s' with
        | elem :: elems => String c elem :: elems
        | [] => [String c ""]
        end
  end.

(** The first step of [resolvePath], the merge of RFC 3986: a reference
    that is no absolute path replaces what follows the last slash of the
    base. *)
Definition merge (base ref : string) : string :=
  if String.eqb ref "" then base
  else if HasPrefix ref "/" then ref
  else
    match CutLastByte base "/" with
    | Some (before, _) => before +:+ "/" +:+ ref
    | None => ref
    end.

(** The second step: [.] dropped, [..] dropping the element before it. *)
Fixpoint removeDotSegments (src dst : list string) : list string :=
  match src with
  | [] => dst
  | elem :: src' =>
      if String.eqb elem "." then removeDotSegments src' dst
      else if String.eqb elem ".." then removeDotSegments src' (removelast dst)
      else removeDotSegments src' (dst ++ [elem])
  end.

Definition TrimPrefix (s prefix : string) : string :=
  if HasPrefix s prefix then String.substring (String.length prefix) (String.length s) s
  else s.

Definition resolvePath (base ref : string) : string :=
  let full := merge base ref in
  if String.eqb full "" then ""
  else
    let src := Split full in
    let dst := removeDotSegments src [] in
    let dst :=
      if String.eqb (List.last src "") "." || String.eqb (List.last src "") ".."
      then dst ++ [""] else dst in
    "/" +:+ TrimPrefix (String.concat "/" dst) "/".

(** No element of the path is [.] or [..]. *)
Definition dotless (path : string) : bool :=
  forallb (fun elem => negb (String.eqb elem "." || String.eqb elem "..")) (Split path).

(** [setPath] on a path that [resolvePath] made, its error ignored as
    [ResolveReference] does. *)
Definition setPath_ (u : url.URL) (p : string) : url.URL :=
  match setPath u p with
  | Ok u' => u'
  | Err _ => u
  end.

Definition with_authority (u : url.URL) (scheme : string) (user : option url.Userinfo)
    (host : string) : url.URL :=
  {| url.Scheme := scheme; url.Opaque := url.Opaque u; url.User := user; url.Host := host;
     url.Path := url.Path u; url.RawPath := url.RawPath u;
     url.ForceQuery := url.ForceQuery u; url.RawQuery := url.RawQuery u;
     url.Fragment := url.Fragment u; url.RawFragment := url.RawFragment u |}.

(** [ResolveReference]. *)
Definition ResolveReference (u ref : url.URL) : url.URL :=
  let scheme := if String.eqb (url.Scheme ref) "" then url.Scheme u else url.Scheme ref in
  if negb (String.eqb (url.Scheme ref) "") || negb (String.eqb (url.Host ref) "")
     || match url.User ref with Some _ => true | None => false end
  then
    setPath_ (with_authority ref scheme (url.User ref) (url.Host ref))
      (resolvePath (EscapedPath ref) "")
  else if negb (String.eqb (url.Opaque ref) "") then
    {| url.Scheme := scheme; url.Opaque := url.Opaque ref; url.User := None; url.Host := "";
       url.Path := ""; url.RawPath := url.RawPath ref;
       url.ForceQuery := url.ForceQuery ref; url.RawQuery := url.RawQuery ref;
       url.Fragment := url.Fragment ref; url.RawFragment := url.RawFragment ref |}
  else
    let inherit :=
      String.eqb (url.Path ref) "" && negb (url.ForceQuery ref)
      && String.eqb (url.RawQuery ref) "" in
    let keep_fragment := inherit && String.eqb (url.Fragment ref) "" in
    setPath_
      {| url.Scheme := scheme; url.Opaque := url.Opaque ref;
         url.User := url.User u; url.Host := url.Host u;
         url.Path := url.Path ref; url.RawPath := url.RawPath ref;
         url.ForceQuery := url.ForceQuery ref;
         url.RawQuery := if inherit then url.RawQuery u else url.RawQuery ref;
         url.Fragment := if keep_fragment then url.Fragment u else url.Fragment ref;
         url.RawFragment :=
           if keep_fragment then url.RawFragment u else url.RawFragment ref |}
      (resolvePath (EscapedPath u) (EscapedPath ref)).

(** [URL.Parse]. *)
Definition URL_Parse (u : url.URL) (ref : string) : result url.URL :=
  match Parse ref with
  | Err e => Err e
  | Ok refURL => Ok (ResolveReference u refURL)
  end.

Definition Userinfo_String (ui : url.Userinfo) : string :=
  url.escape (url.username ui) url.encodeUserPassword +:+
  match url.password ui with
  | Some p => ":" +:+ url.escape p url.encodeUserPassword
  | None => ""
  end.

(** [URL.String]. *)
Definition URL_String (u : url.URL) : string :=
  let buf := if String.eqb (url.Scheme u) "" then "" else url.Scheme u +:+ ":" in
  let buf :=
    if negb (String.eqb (url.Opaque u) "") then buf +:+ url.Opaque u
    else
      let has_user := match url.User u with Some _ => true | None => false end in
      let buf :=
        if negb (String.eqb (url.Scheme u) "") || negb (String.eqb (url.Host u) "") || has_user
        then
          (buf +:+
           (if negb (String.eqb (url.Host u) "") || negb (String.eqb (url.Path u) "")
               || has_user then "//" else "")) +:+
          match url.User u with
          | Some ui => Userinfo_String ui +:+ "@"
          | None => ""
          end +:+
          url.escape (url.Host u) url.encodeHost
        else buf in
      let path := EscapedPath u in
      let buf :=
        if negb (String.eqb path "") && negb (HasPrefix path "/")
           && negb (String.eqb (url.Host u) "")
        then buf +:+ "/" else buf in
      let buf :=
        if String.eqb buf "" && ContainsByte (fst (Cut path "/")) ":"
        then buf +:+ "./" else buf in
      buf +:+ path in
  let buf :=
    if url.ForceQuery u || negb (String.eqb (url.RawQuery u) "")
    then buf +:+ "?" +:+ url.RawQuery u else buf in
  if negb (String.eqb (url.Fragment u) "")
  then buf +:+ "#" +:+ EscapedFragment u else buf.

(** What [URL.String] prints before the path of a URL that has one and
    no opaque part: the scheme and the authority. *)
Definition beforePath (u : url.URL) : string :=
  let buf := if String.eqb (url.Scheme u) "" then "" else url.Scheme u +:+ ":" in
  if negb (String.eqb (url.Scheme u) "") || negb (String.eqb (url.Host u) "")
     || match url.User u with Some _ => true | None => false end
  then
    (buf +:+ "//") +:+
    match url.User u with
    | Some ui => Userinfo_String ui +:+ "@"
    | None => ""
    end +:+
    url.escape (url.Host u) url.encodeHost
  else buf.

(** What it prints after the path of a URL without a fragment. *)
Definition afterPath (u : url.URL) : string :=
  if url.ForceQuery u || negb (String.eqb (url.RawQuery u) "")
  then "?" +:+ url.RawQuery u else "".

(** A path whose default encoding is the path itself. *)
Definition canonicalPath (path : string) : bool :=
  all (fun c => negb (url.shouldEscape c url.encodePath)) path.

(** A base URL for the resource paths of an API: no opaque part, query
    or fragment, and a path that is absolute, ends in a slash, has no dot
    segments and is its own encoding. *)
Definition plainBase (base : url.URL) : bool :=
  String.eqb (url.Opaque base) "" && String.eqb (url.RawPath base) ""
  && String.eqb (url.RawQuery base) "" && negb (url.ForceQuery base)
  && String.eqb (url.Fragment base) ""
  && HasPrefix (url.Path base) "/" && HasSuffix (url.Path base) "/"
  && canonicalPath (url.Path base) && dotless (url.Path base +:+ "context").

(** *** encoding/json: the scanner

    The grammar of RFC 8259, except that a [\u] escape is not read (a
    text with one is refused) and bytes are not checked to be UTF-8. *)

Definition isSpace (c : ascii) : bool :=
  Ascii.eqb c " " || N.eqb (N_of_ascii c) 9 || N.eqb (N_of_ascii c) 10
  || N.eqb (N_of_ascii c) 13.

Fixpoint skipSpace (s : string) : string :=
  match s with
  | EmptyString => ""
  | String c s' => if isSpace c then skipSpace s' else s
  end.

(** The byte an escape [\e] stands for. *)
Definition unquoteEscape (e : ascii) : option ascii :=
  if Ascii.eqb e dquote then Some dquote
  else if Ascii.eqb e "\" then Some "\"%char
  else if Ascii.eqb e "/" then Some "/"%char
  else if Ascii.eqb e "b" then Some (ascii_of_N 8)
  else if Ascii.eqb e "f" then Some (ascii_of_N 12)
  else if Ascii.eqb e "n" then Some (ascii_of_N 10)
  else if Ascii.eqb e "r" then Some (ascii_of_N 13)
  else if Ascii.eqb e "t" then Some (ascii_of_N 9)
  else None.

(** After the opening quote: the string and the text after its closing
    quote. *)
Fixpoint scanString (s : string) : option (string * string) :=
  match s with
  | EmptyString => None
  | String c s' =>
      if Ascii.eqb c dquote then Some ("", s')
      else if Ascii.eqb c "\" then
        match s' with
        | EmptyString => None
        | String e s'' =>
            match unquoteEscape e with
            | None => None
            | Some d => (fun '(str, rest) => (String d str, rest)) <$> scanString s''
            end
        end
      else if N.ltb (N_of_ascii c) 32 then None
      else (fun '(str, rest) => (String c str, rest)) <$> scanString s'
  end.

(** The longest prefix of digits, and the rest. *)
Fixpoint scanDigits (s : string) : string * string :=
  match s with
  | EmptyString => ("", "")
  | String c s' =>
      if isDigit c then let '(ds, rest) := scanDigits s' in (String c ds, rest)
      else ("", s)
  end.

(** A number: sign, integer part without a leading zero, fraction,
    exponent. *)
Definition scanNumber (s : string) : option (string * string) :=
  let '(sign, s) :=
    match s with
    | String "-" s' => ("-", s')
    | _ => ("", s)
    end in
  let '(int, s) := scanDigits s in
  if String.eqb int "" || (HasPrefix int "0" && negb (String.eqb int "0")) then None
  else
    let frac :=
      match s with
      | String "." s' =>
          let '(ds, rest) := scanDigits s' in
          if String.eqb ds "" then None else Some ("." +:+ ds, rest)
      | _ => Some ("", s)
      end in
    match frac with
    | None => None
    | Some (frac, s) =>
        match s with
        | String e s' =>
            if Ascii.eqb e "e" || Ascii.eqb e "E" then
              let '(esign, s'') :=
                match s' with
                | String "+" t => ("+", t)
                | String "-" t => ("-", t)
                | _ => ("", s')
                end in
              let '(ds, rest) := scanDigits s'' in
              if String.eqb ds "" then None
              else Some (sign +:+ int +:+ frac +:+ String e esign +:+ ds, rest)
            else Some (sign +:+ int +:+ frac, s)
        | EmptyString => Some (sign +:+ int +:+ frac, s)
        end
    end.

Definition dropPrefix (s prefix : string) : option string :=
  if HasPrefix s prefix
  then Some (String.substring (String.length prefix) (String.length s) s)
  else None.

(** One value and the text after it; the elements of an array after its
    bracket; the members of an object after its brace. *)
Fixpoint scanValue (fuel : nat) (s : string) : option (json.value * string) :=
  match fuel with
  | O => None
  | S fuel =>
      match skipSpace s with
      | EmptyString => None
      | String c s' =>
          if Ascii.eqb c "{" then
            match skipSpace s' with
            | String "}" rest => Some (json.Object [], rest)
            | _ => (fun '(ms, rest) => (json.Object ms, rest)) <$> scanMembers fuel s'
            end
          else if Ascii.eqb c "[" then
            match skipSpace s' with
            | String "]" rest => Some (json.Array [], rest)
            | _ => (fun '(vs, rest) => (json.Array vs, rest)) <$> scanElements fuel s'
            end
          else if Ascii.eqb c dquote then
            (fun '(str, rest) => (json.Str str, rest)) <$> scanString s'
          else if Ascii.eqb c "n" then
            (fun rest => (json.Null, rest)) <$> dropPrefix s' "ull"
          else if Ascii.eqb c "t" then
            (fun rest => (json.Bool true, rest)) <$> dropPrefix s' "rue"
          else if Ascii.eqb c "f" then
            (fun rest => (json.Bool false, rest)) <$> dropPrefix s' "alse"
          else
            (fun '(lit, rest) => (json.Number lit, rest)) <$> scanNumber (String c s')
      end
  end
with scanElements (fuel : nat) (s : string) : option (list json.value * string) :=
  match fuel with
  | O => None
  | S fuel =>
      match scanValue fuel s with
      | None => None
      | Some (v, rest) =>
          match skipSpace rest with
          | String "]" rest' => Some ([v], rest')
          | String "," rest' =>
              (fun '(vs, rest'') => (v :: vs, rest'')) <$> scanElements fuel rest'
          | _ => None
          end
      end
  end
with scanMembers (fuel : nat) (s : string)
    : option (list (string * json.value) * string) :=
  match fuel with
  | O => None
  | S fuel =>
      match skipSpace s with
      | String c s' =>
          if Ascii.eqb c dquote then
            match scanString s' with
            | None => None
            | Some (key, rest) =>
                match skipSpace rest with
                | String ":" rest' =>
                    match scanValue fuel rest' with
                    | None => None
                    | Some (v, rest'') =>
                        match skipSpace rest'' with
                        | String "}" rest3 => Some ([(key, v)], rest3)
                        | String "," rest3 =>
                            (fun '(ms, rest4) => ((key, v) :: ms, rest4))
                              <$> scanMembers fuel rest3
                        | _ => None
                        end
                    end
                | _ => None
                end
            end
          else None
      | EmptyString => None
      end
  end.

(** The whole text is one value between spaces. *)
Definition scan (data : string) : option json.value :=
  match scanValue (2 * String.length data + 2) data with
  | Some (v, rest) => if String.eqb (skipSpace rest) "" then Some v else None
  | None => None
  end.

(** *** time

    A time is kept as its text.  [Time.UnmarshalJSON] leaves the time as
    it is on [null], takes a string of the shape
    [YYYY-MM-DDThh:mm:ssZ] (fractions of a second and numeric zones are
    not read, nor are the ranges of the fields checked), and fails on
    anything else. *)

Definition isRFC3339 (s : string) : bool :=
  match list_ascii_of_string s with
  | [y1; y2; y3; y4; d1; m1; m2; d2; a1; a2; t; h1; h2; c1; n1; n2; c2; s1; s2; z] =>
      forallb isDigit [y1; y2; y3; y4; m1; m2; a1; a2; h1; h2; n1; n2; s1; s2]
      && Ascii.eqb d1 "-" && Ascii.eqb d2 "-" && Ascii.eqb t "T"
      && Ascii.eqb c1 ":" && Ascii.eqb c2 ":" && Ascii.eqb z "Z"
  | _ => false
  end.

Definition Time_UnmarshalJSON (v : json.value) (t : string) : result string :=
  match v with
  | json.Null => Ok t
  | json.Str s => if isRFC3339 s then Ok s else Err (time_ParseError s)
  | _ => Err (time_ParseError "")
  end.

(** *** The network

    The world is the list of the requests sent so far, the oldest
    first.  A server is a function from requests to what the transport
    returns for them; [serve] is the [Do] of a client in front of it.
    Behind the zero client there is no server at all. *)

Definition serve (server : http.Request -> result http.Response)
    : http.Request -> list http.Request -> result http.Response * list http.Request :=
  fun req sent => (server req, sent ++ [req]).

#[global] Instance runtime : Runtime :=
  Build_Runtime (list http.Request) string "0001-01-01T00:00:00Z"
    Time_UnmarshalJSON Parse URL_Parse URL_String scan
    (serve (fun _ => Err (http_Error "connection refused"))).

End Ref.

(** ** Page chains *)

Section Pages.

Context {runtime : Runtime}.

(** The part of a traversal that went well and on: from [params] in the
    world [w], each fetch returned a page with a next-page token, the
    pages' items are [pages], and the traversal stands at [params'] in
    the world [w']. *)
Inductive walked (c : Client)
    : listContextsParams -> World -> list (list Context)
      -> listContextsParams -> World -> Prop :=
  | walked_nil params w : walked c params w [] params w
  | walked_cons params w resp token w1 pages params' w' :
      listContexts c params w = Returns ((Some resp, None), w1) ->
      NextPageToken resp = Some token ->
      walked c (set_PageToken params (Some token)) w1 pages params' w' ->
      walked c params w (Items resp :: pages) params' w'.

(** A finite chain: pages with tokens, then one page without.  [w'] is
    the world after the last fetch. *)
Inductive chain (c : Client)
    : listContextsParams -> World -> list (list Context) -> World -> Prop :=
  | chain_end params w pages params' w1 resp w' :
      walked c params w pages params' w1 ->
      listContexts c params' w1 = Returns ((Some resp, None), w') ->
      NextPageToken resp = None ->
      chain c params w (pages ++ [Items resp]) w'.

(** The parameters [Contexts] and [ContextByName] start from. *)
Definition ownerParams (org vcs : string) : listContextsParams :=
  {| OwnerID := None; OwnerSlug := Some (toSlug org vcs);
     OwnerType := None; PageToken := None |}.

(** The fields of [params] that are not nil, under their query names,
    in the order id, slug, type, token. *)
Definition present (params : listContextsParams) : list (string * string) :=
  let field (key : string) (value : option string) :=
    match value with
    | Some v => [(key, v)]
    | None => []
    end in
  field "owner-id" (OwnerID params) ++ field "owner-slug" (OwnerSlug params)
  ++ field "owner-type" (OwnerType params) ++ field "page-token" (PageToken params).

(** A request carries the two headers of client [c]. *)
Definition carries_headers (c : Client) (req : http.Request) : Prop :=
  http.Values (http.Header_ req) "circle-token" = [token c]
  /\ http.Values (http.Header_ req) "Accept" = ["application/json"].

(** The error of a traversal that found no context of that name. *)
Definition NotFound (name : string) : error :=
  fmt_Errorf ("Cannot find context named '" +:+ name +:+ "'").

(** The bytes a query-escaped text is made of: the unreserved ones, the
    percent sign of an escape and the plus sign of a space. *)
Definition queryText (c : ascii) : bool :=
  GoStrings.isAlnum c || GoStrings.oneOf "-_.~%+" c.

(** The requests client [c] makes: what its three builders return. *)
Inductive produced (c : Client) (req : http.Request) : Prop :=
  | produced_newHTTPRequest method url err :
      newHTTPRequest c method url = (Some req, err) -> produced c req
  | produced_newListContextsRequest params err :
      newListContextsRequest c params = Returns (Some req, err) -> produced c req
  | produced_newDeleteContextRequest contextID err :
      newDeleteContextRequest c contextID = Returns (Some req, err) -> produced c req.

(** The message of an API error, read off the members of a JSON object
    from left to right: the members under the key [message] (up to
    case) each set it, to a string or, for [null], to nothing; [acc] is
    the message so far.  [None] when such a member is neither a string
    nor [null]. *)
Fixpoint last_message (members : list (string * json.value)) (acc : option string)
    : option (option string) :=
  match members with
  | [] => Some acc
  | (key, v) :: rest =>
      if json.equalFold "message" key then
        match v with
        | json.Null => last_message rest None
        | json.Str s => last_message rest (Some s)
        | _ => None
        end
      else last_message rest acc
  end.

(** The string message a JSON document gives an API error, if any. *)
Definition ApiError_message (v : json.value) : option string :=
  match v with
  | json.Object members =>
      match last_message members None with
      | Some (Some message) => Some message
      | _ => None
      end
  | _ => None
  end.

(** A well-typed JSON document without a message: [null], or an object
    whose message is absent or, in the end, [null]. *)
Definition no_message (v : json.value) : bool :=
  match v with
  | json.Null => true
  | json.Object members =>
      match last_message members None with
      | Some None => true
      | _ => false
      end
  | _ => false
  end.

(** [json.Unmarshal] of an [ErrorResponse], as both operations call it. *)
Definition decodeError (bodyBytes : string) : ErrorResponse * option error :=
  json.Unmarshal json_scan store_ErrorResponse bodyBytes {| Message := None |}.

End Pages.

(** ** Concrete servers, on the reference runtime *)

Module Example.
Import GoStrings.

(** The JSON texts below are written with ['] where JSON has the double
    quote; [js] puts the double quotes in. *)
Definition js (s : string) : string :=
  GoStrings.map (fun c => if Ascii.eqb c "'" then dquote else c) s.

Definition respond (status : Z) (body : string) : result http.Response :=
  Ok {| http.StatusCode := status; http.Body := Ok (js body) |}.

(** The client [NewClient] makes, in front of a given server instead of
    the network. *)
Definition clientOf (serverURL tok : string)
    (srv : http.Request -> result http.Response) : Client :=
  {| token := token (NewClient serverURL tok);
     server := server (NewClient serverURL tok);
     client := Ref.serve srv |}.

Definition page1 : string :=
  "{'items':[{'id':'c1','name':'build','created_at':'2020-01-01T00:00:00Z'},"
  +:+ "{'id':'c2','name':'test','created_at':'2020-01-02T00:00:00Z'}],"
  +:+ "'next_page_token':'p2'}".

Definition page2 : string :=
  "{'items':[{'id':'c3','name':'deploy','created_at':'2020-01-03T00:00:00Z'},"
  +:+ "{'id':'c4','name':'deploy','created_at':'2020-01-04T00:00:00Z'}],"
  +:+ "'next_page_token':'p3'}".

Definition page3 : string :=
  "{'items':[{'id':'c5','name':'deploy','created_at':'2020-01-05T00:00:00Z'},"
  +:+ "{'id':'c2','name':'test','created_at':'2020-01-02T00:00:00Z'}],"
  +:+ "'next_page_token':null}".

(** A listing of three pages chained by the tokens [p2] and [p3]; the
    third page fails when [broken] is set. *)
Definition listing (broken : bool) (req : http.Request) : result http.Response :=
  let q := url.RawQuery (http.URL req) in
  if negb (String.eqb (http.Method req) "GET"
           && String.eqb (url.Path (http.URL req)) "/api/v2/context")
  then respond 404 "{'message':'no such resource'}"
  else if String.eqb q "owner-slug=gh%2Facme" then respond 200 page1
  else if String.eqb q "owner-slug=gh%2Facme&page-token=p2" then respond 200 page2
  else if String.eqb q "owner-slug=gh%2Facme&page-token=p3" then
    if broken then respond 500 "{'message':'backend unavailable'}"
    else respond 200 page3
  else respond 400 "{'message':'bad request'}".

(** A server that answers every request with one status and body. *)
Definition always (status : Z) (body : string) (req : http.Request)
    : result http.Response :=
  respond status body.

Definition context (id name created : string) : @Context Ref.runtime :=
  {| CreatedAt := created; ID := id; Name := name |}.

Definition c1 := context "c1" "build" "2020-01-01T00:00:00Z".
Definition c2 := context "c2" "test" "2020-01-02T00:00:00Z".
Definition c3 := context "c3" "deploy" "2020-01-03T00:00:00Z".
Definition c4 := context "c4" "deploy" "2020-01-04T00:00:00Z".
Definition c5 := context "c5" "deploy" "2020-01-05T00:00:00Z".

Definition acme (broken : bool) : Client :=
  clientOf "https://circleci.com/api/v2" "secret" (listing broken).

(** The client of the API, its server given without the last slash, in
    front of a server that always answers the same. *)
Definition answering (status : Z) (body : string) : Client :=
  clientOf "https://circleci.com/api/v2" "secret" (always status body).

Definition noParams : listContextsParams :=
  {| OwnerID := None; OwnerSlug := None; OwnerType := None; PageToken := None |}.

(** The base URL of the API, and the URL of its [context] resource. *)
Definition apiBase : url.URL :=
  {| url.Scheme := "https"; url.Opaque := ""; url.User := None;
     url.Host := "circleci.com"; url.Path := "/api/v2/"; url.RawPath := "";
     url.ForceQuery := false; url.RawQuery := ""; url.Fragment := "";
     url.RawFragment := "" |}.

Definition apiContext : url.URL :=
  {| url.Scheme := "https"; url.Opaque := ""; url.User := None;
     url.Host := "circleci.com"; url.Path := "/api/v2/context"; url.RawPath := "";
     url.ForceQuery := false; url.RawQuery := ""; url.Fragment := "";
     url.RawFragment := "" |}.


(** The request that deletes the context [abc]. *)
Definition deleteAbc : http.Request :=
  {| http.Method := "DELETE";
     http.URL :=
       {| url.Scheme := "https"; url.Opaque := ""; url.User := None;
          url.Host := "circleci.com"; url.Path := "/api/v2/context/abc";
          url.RawPath := ""; url.ForceQuery := false; url.RawQuery := "";
          url.Fragment := ""; url.RawFragment := "" |};
     http.Header_ :=
       http.Add (http.Add ∅ "circle-token" "secret") "Accept" "application/json";
     http.Host := "circleci.com" |}.


(** The world a call leaves. *)
Definition after {A} (call : IO A) (w : list http.Request) : list http.Request :=
  match call w with
  | Returns (_, w') => w'
  | _ => w
  end.

Definition acmeParams : listContextsParams := ownerParams "acme" "gh".

(** The worlds after the first, second and third fetch of a traversal of
    the listing. *)
Definition fetch1 (broken : bool) : list http.Request :=
  after (listContexts (acme broken) acmeParams) [].

Definition fetch2 (broken : bool) : list http.Request :=
  after (listContexts (acme broken) (set_PageToken acmeParams (Some "p2")))
    (fetch1 broken).

Definition fetch3 (broken : bool) : list http.Request :=
  after (listContexts (acme broken) (set_PageToken acmeParams (Some "p3")))
    (fetch2 broken).

(** A response of the listing, as [listContexts] fills it in. *)
Definition page (broken : bool) (items : list Context) (next current : option string)
    : listContextsResponse :=
  {| Items := items; NextPageToken := next; of_client := acme broken;
     of_params := set_PageToken acmeParams current |}.

(** What a world shows of the requests sent: method and URL of each. *)
Definition sent (w : list http.Request) : list (string * string) :=
  List.map (fun req => (http.Method req, Ref.URL_String (http.URL req))) w.

End Example.

(** ** Documents on the wire *)

Section Documents.

Context {runtime : Runtime}.

(** The JSON object of a context: its id, its name and, as a JSON value
    of its own, the time it was created at. *)
Definition contextDocument (context : Context) (created : json.value) : json.value :=
  json.Object
    [ ("id", json.Str (ID context)); ("name", json.Str (Name context));
      ("created_at", created) ].

Definition tokenDocument (token : option string) : json.value :=
  match token with
  | Some t => json.Str t
  | None => json.Null
  end.

(** The JSON object of a page. *)
Definition pageDocument (contexts : list Context) (createds : list json.value)
    (token : option string) : json.value :=
  json.Object
    [ ("items", json.Array (zip_with contextDocument contexts createds));
      ("next_page_token", tokenDocument token) ].


(** A document that is neither an object nor [null]. *)
Definition notObject (v : json.value) : bool :=
  match v with
  | json.Null | json.Object _ => false
  | _ => true
  end.

End Documents.

(** ** Context IDs

    The IDs the API gives to contexts are UUIDs: letters, digits and
    hyphens.  A plain ID is made of such bytes and underscores. *)

Definition plainID (contextID : string) : bool :=
  GoStrings.all (fun c => GoStrings.isAlnum c || GoStrings.oneOf "-_" c) contextID.

(** A reference that is a path and nothing else. *)
Definition relative (path : string) : url.URL :=
  {| url.Scheme := ""; url.Opaque := ""; url.User := None; url.Host := "";
     url.Path := path; url.RawPath := ""; url.ForceQuery := false;
     url.RawQuery := ""; url.Fragment := ""; url.RawFragment := "" |}.

(** ** More runs of the reference runtime *)

Module Sample.
Import Example.

(** The request that lists the contexts of the owner [gh/acme], from the
    first page or from the page of a token. *)
Definition listAcme (token : option string) : http.Request :=
  {| http.Method := "GET";
     http.URL :=
       url.set_RawQuery apiContext
         ("owner-slug=gh%2Facme"
          +:+ match token with
              | Some t => "&page-token=" +:+ t
              | None => ""
              end);
     http.Header_ :=
       http.Add (http.Add ∅ "circle-token" "secret") "Accept" "application/json";
     http.Host := "circleci.com" |}.

(** What a server answered. *)
Definition answer (status : Z) (body : string) : http.Response :=
  {| http.StatusCode := status; http.Body := Ok (js body) |}.

(** A page without items whose token is the token of that same page. *)
Definition again : string := "{'items':[],'next_page_token':'again'}".

Definition atAgain : listContextsParams := set_PageToken acmeParams (Some "again").

(** The traversal stands at the page [again], whatever was sent so far. *)
Definition circling (params : listContextsParams) (w : list http.Request) : Prop :=
  params = atAgain.

Definition created (context : @Context Ref.runtime) : json.value :=
  json.Str (CreatedAt context).

End Sample.

(** * Properties *)

Section Traversals.

Context {runtime : Runtime}.

Implicit Types (c : Client) (params : listContextsParams) (w : World).

Lemma listAllContexts_step fuel c params w :
  listAllContexts (S fuel) c params w =
  match listContexts c params w with
  | Returns ((_, Some err), w1) => Returns (([], Some err), w1)
  | Returns ((None, None), _) => Panics nil_pointer_dereference
  | Returns ((Some resp, None), w1) =>
      match NextPageToken resp with
      | Some _ =>
          match listAllContexts fuel c (set_PageToken params (NextPageToken resp)) w1 with
          | Returns ((_, Some err), w2) => Returns (([], Some err), w2)
          | Returns ((after, None), w2) => Returns ((Items resp ++ after, None), w2)
          | Panics p => Panics p
          | OutOfFuel => OutOfFuel
          end
      | None => Returns ((Items resp, None), w1)
      end
  | Panics p => Panics p
  | OutOfFuel => OutOfFuel
  end.
Proof.
  cbn [listAllContexts]. unfold mbind, IO_bind, bind.
  destruct (listContexts c params w) as [[[resp err] w1] | p | ]; try reflexivity.
  destruct err as [err|], resp as [resp|]; try reflexivity.
  destruct (NextPageToken resp); try reflexivity.
  destruct (listAllContexts fuel c _ w1) as [[[after err] w2] | p | ]; try reflexivity.
  destruct err; reflexivity.
Qed.

Lemma getContextByName_step fuel c params name w :
  getContextByName (S fuel) c params name w =
  match listContexts c params w with
  | Returns ((_, Some err), w1) => Returns ((None, Some err), w1)
  | Returns ((None, None), _) => Panics nil_pointer_dereference
  | Returns ((Some resp, None), w1) =>
      match List.find (fun context => String.eqb (Name context) name) (Items resp) with
      | Some context => Returns ((Some context, None), w1)
      | None =>
          match NextPageToken resp with
          | Some _ =>
              match getContextByName fuel c (set_PageToken params (NextPageToken resp))
                      name w1 with
              | Returns ((_, Some err), w2) => Returns ((None, Some err), w2)
              | Returns ((context, None), w2) => Returns ((context, None), w2)
              | Panics p => Panics p
              | OutOfFuel => OutOfFuel
              end
          | None => Returns ((None, Some (NotFound name)), w1)
          end
      end
  | Panics p => Panics p
  | OutOfFuel => OutOfFuel
  end.
Proof.
  cbn [getContextByName]. unfold mbind, IO_bind, bind.
  destruct (listContexts c params w) as [[[resp err] w1] | p | ]; try reflexivity.
  destruct err as [err|], resp as [resp|]; try reflexivity.
  destruct (List.find _ (Items resp)); try reflexivity.
  destruct (NextPageToken resp); try reflexivity.
  destruct (getContextByName fuel c _ name w1) as [[[context err] w2] | p | ]; try reflexivity.
  destruct err; reflexivity.
Qed.

(** With an error comes the nil slice, and the nil context. *)
Lemma listAllContexts_error fuel c params w contexts err w' :
  listAllContexts fuel c params w = Returns ((contexts, Some err), w') ->
  contexts = [].
Proof.
  revert params w. induction fuel as [|fuel IH]; intros params w; [discriminate|].
  rewrite listAllContexts_step.
  destruct (listContexts c params w) as [[[[resp|] [e|]] w1] | p | ]; try congruence.
  destruct (NextPageToken resp); [|congruence].
  destruct (listAllContexts fuel c _ w1) as [[[after [e|]] w2] | p | ]; congruence.
Qed.

Lemma getContextByName_error fuel c params name w context err w' :
  getContextByName fuel c params name w = Returns ((context, Some err), w') ->
  context = None.
Proof.
  revert params w. induction fuel as [|fuel IH]; intros params w; [discriminate|].
  rewrite getContextByName_step.
  destruct (listContexts c params w) as [[[[resp|] [e|]] w1] | p | ]; try congruence.
  destruct (List.find _ (Items resp)); [congruence|].
  destruct (NextPageToken resp); [|congruence].
  destruct (getContextByName fuel c _ name w1) as [[[after [e|]] w2] | p | ]; congruence.
Qed.

(** What a walk does to [listAllContexts]: the pages walked come first,
    and an error met after them is all that is returned. *)
Lemma listAllContexts_walked c params w pages params' w1 :
  walked c params w pages params' w1 ->
  forall fuel, length pages <= fuel ->
    listAllContexts fuel c params w =
    match listAllContexts (fuel - length pages) c params' w1 with
    | Returns ((_, Some err), w2) => Returns (([], Some err), w2)
    | Returns ((after, None), w2) => Returns ((concat pages ++ after, None), w2)
    | Panics p => Panics p
    | OutOfFuel => OutOfFuel
    end.
Proof.
  induction 1 as [params w | params w resp token w1 pages params' w' Hfetch Htoken _ IH];
    intros fuel Hfuel.
  - cbn [length concat app]. rewrite Nat.sub_0_r.
    destruct (listAllContexts fuel c params w) as [[[after [err|]] w2] | p | ] eqn:E;
      try reflexivity.
    apply listAllContexts_error in E. subst after. reflexivity.
  - cbn [length] in Hfuel. destruct fuel as [|fuel]; [lia|].
    rewrite listAllContexts_step, Hfetch, Htoken.
    rewrite IH by lia. cbn [length concat]. rewrite Nat.sub_succ.
    destruct (listAllContexts (fuel - length pages) c params' w')
      as [[[after [err|]] w2] | p | ]; try reflexivity.
    rewrite <- app_assoc. reflexivity.
Qed.

Lemma find_app_None {A} (p : A -> bool) (xs ys : list A) :
  List.find p (xs ++ ys) = None <-> List.find p xs = None /\ List.find p ys = None.
Proof.
  induction xs as [|x xs IH]; cbn [app List.find]; [tauto|].
  destruct (p x); [|exact IH]. split; [discriminate | intros [? _]; discriminate].
Qed.

Lemma find_app_Some {A} (p : A -> bool) (xs ys : list A) (x : A) :
  List.find p xs = Some x -> List.find p (xs ++ ys) = Some x.
Proof.
  induction xs as [|y xs IH]; cbn [app List.find]; [discriminate|].
  destruct (p y); [trivial | exact IH].
Qed.

Lemma find_app_skip {A} (p : A -> bool) (xs ys : list A) :
  List.find p xs = None -> List.find p (xs ++ ys) = List.find p ys.
Proof.
  induction xs as [|y xs IH]; cbn [app List.find]; [trivial|].
  destruct (p y); [discriminate | exact IH].
Qed.

(** Pages without a match are passed over. *)
Lemma getContextByName_walked c params name w pages params' w1 :
  walked c params w pages params' w1 ->
  List.find (fun context => String.eqb (Name context) name) (concat pages) = None ->
  forall fuel, length pages <= fuel ->
    getContextByName fuel c params name w =
    getContextByName (fuel - length pages) c params' name w1.
Proof.
  induction 1 as [params w | params w resp token w1 pages params' w' Hfetch Htoken _ IH];
    intros Hnone fuel Hfuel.
  - cbn [length]. rewrite Nat.sub_0_r. reflexivity.
  - cbn [length] in Hfuel. destruct fuel as [|fuel]; [lia|].
    cbn [concat] in Hnone. apply find_app_None in Hnone as [Hhere Hlater].
    rewrite getContextByName_step, Hfetch, Hhere, Htoken.
    rewrite IH by (assumption || lia). cbn [length]. rewrite Nat.sub_succ.
    destruct (getContextByName (fuel - length pages) c params' name w')
      as [[[context [err|]] w2] | p | ] eqn:E; try reflexivity.
    apply getContextByName_error in E. subst context. reflexivity.
Qed.

(** C2.  Over a finite chain of pages (each page but the last with a
    token, the last without), [listAllContexts], and [Contexts] when the
    chain starts from its parameters, return the items of all the pages
    concatenated in the order the server gave them, nothing dropped,
    merged or moved: as many items as the pages have together.  Any fuel
    of at least the number of pages will do. *)
Theorem listAllContexts_collects_chain c params w pages w' :
  chain c params w pages w' ->
  forall fuel, length pages <= fuel ->
    listAllContexts fuel c params w = Returns ((concat pages, None), w')
    /\ (forall org vcs, params = ownerParams org vcs ->
          Contexts fuel c org vcs w = Returns ((concat pages, None), w'))
    /\ length (concat pages) = list_sum (List.map (@length Context) pages).
Proof.
  intros Hchain fuel Hfuel.
  assert (listAllContexts fuel c params w = Returns ((concat pages, None), w')) as Hall.
  { destruct Hchain as [params w pages params' w1 resp w' Hwalk Hlast Hnone].
    rewrite length_app in Hfuel. cbn [length] in Hfuel.
    rewrite (listAllContexts_walked _ _ _ _ _ _ Hwalk) by lia.
    destruct (fuel - length pages) as [|n] eqn:E; [lia|].
    rewrite listAllContexts_step, Hlast, Hnone.
    rewrite concat_app. cbn [concat]. rewrite app_nil_r. reflexivity. }
  split; [exact Hall|]. split.
  - intros org vcs ->. exact Hall.
  - clear. induction pages as [|page pages IH]; [reflexivity|].
    cbn [concat List.map list_sum]. rewrite length_app, IH. reflexivity.
Qed.

(** C3.  [getContextByName], and [ContextByName] when the traversal
    starts from its parameters, walk the pages in order and stop at the
    first page that holds a context of the name sought or has no token.
    The context returned is the first of that name in that page, hence
    the first in page order then in-page position, whatever pages would
    follow; the world is left as the fetch of that page left it, so no
    later page is fetched.  Without a match in a chain that has ended the
    error is [NotFound] with the name. *)
Theorem getContextByName_first_match c params name w pages params' w1 resp w' :
  walked c params w pages params' w1 ->
  listContexts c params' w1 = Returns ((Some resp, None), w') ->
  List.find (fun context => String.eqb (Name context) name) (concat pages) = None ->
  is_Some (List.find (fun context => String.eqb (Name context) name) (Items resp))
  \/ NextPageToken resp = None ->
  forall fuel, length pages < fuel ->
    let outcome :=
      match List.find (fun context => String.eqb (Name context) name) (Items resp) with
      | Some context => (Some context, None)
      | None => (None, Some (NotFound name))
      end in
    getContextByName fuel c params name w = Returns (outcome, w')
    /\ (forall org vcs, params = ownerParams org vcs ->
          ContextByName fuel c org vcs name w = Returns (outcome, w'))
    /\ (forall later,
          is_Some (List.find (fun context => String.eqb (Name context) name) (Items resp)) ->
          List.find (fun context => String.eqb (Name context) name)
            (concat (pages ++ Items resp :: later))
          = List.find (fun context => String.eqb (Name context) name) (Items resp)).
Proof.
  intros Hwalk Hlast Hbefore Hstop fuel Hfuel outcome.
  assert (getContextByName fuel c params name w = Returns (outcome, w')) as Hget.
  { rewrite (getContextByName_walked _ _ _ _ _ _ _ Hwalk Hbefore) by lia.
    destruct (fuel - length pages) as [|n] eqn:E; [lia|].
    rewrite getContextByName_step, Hlast. subst outcome.
    destruct (List.find _ (Items resp)) as [context|]; [reflexivity|].
    destruct Hstop as [[x Hx] | Hnone]; [discriminate|].
    rewrite Hnone. reflexivity. }
  split; [exact Hget|]. split.
  - intros org vcs ->. exact Hget.
  - intros later [x Hx]. rewrite concat_app. cbn [concat].
    rewrite (find_app_skip _ _ _ Hbefore), Hx.
    apply find_app_Some. exact Hx.
Qed.

(** A fetch that panics takes the whole traversal with it. *)
Lemma listAllContexts_panics c params w pages params' w1 p :
  walked c params w pages params' w1 ->
  listContexts c params' w1 = Panics p ->
  forall fuel, length pages < fuel ->
    listAllContexts fuel c params w = Panics p.
Proof.
  intros Hwalk Hpanic fuel Hfuel.
  rewrite (listAllContexts_walked _ _ _ _ _ _ Hwalk) by lia.
  destruct (fuel - length pages) as [|n] eqn:E; [lia|].
  rewrite listAllContexts_step, Hpanic. reflexivity.
Qed.


End Traversals.

Section Requests.

Context {runtime : Runtime}.

Implicit Types (c : Client) (params : listContextsParams) (w : World).

(** *** Query strings *)

Lemma all_app (p : ascii -> bool) (s t : string) :
  GoStrings.all p (s +:+ t) = GoStrings.all p s && GoStrings.all p t.
Proof.
  induction s as [|a s IH]; [reflexivity|].
  change (String a s +:+ t) with (String a (s +:+ t)).
  cbn [GoStrings.all]. rewrite IH. apply andb_assoc.
Qed.

Lemma escape_byte_queryText (a : ascii) :
  GoStrings.all queryText (url.escape_byte a url.encodeQueryComponent) = true.
Proof. destruct a as [[] [] [] [] [] [] [] []]; reflexivity. Qed.

Lemma QueryEscape_queryText (s : string) :
  GoStrings.all queryText (url.QueryEscape s) = true.
Proof.
  induction s as [|a s IH]; [reflexivity|].
  unfold url.QueryEscape in *. cbn [url.escape].
  rewrite all_app, escape_byte_queryText, IH. reflexivity.
Qed.

Lemma unescape_escape_byte (a : ascii) (s : string) :
  url.unescape (url.escape_byte a url.encodeQueryComponent +:+ s) url.encodeQueryComponent
  = String a <$> url.unescape s url.encodeQueryComponent.
Proof. destruct a as [[] [] [] [] [] [] [] []]; reflexivity. Qed.

(** What the server decodes is what was escaped. *)
Lemma QueryUnescape_QueryEscape (s : string) :
  url.QueryUnescape (url.QueryEscape s) = Some s.
Proof.
  unfold url.QueryUnescape, url.QueryEscape.
  induction s as [|a s IH]; [reflexivity|].
  cbn [url.escape]. rewrite unescape_escape_byte, IH. reflexivity.
Qed.

Lemma Encode_urlParams_escaped params :
  url.Encode (urlParams params) =
  String.concat "&"
    (List.map (fun '(k, v) => url.QueryEscape k +:+ "=" +:+ url.QueryEscape v)
       (present params)).
Proof.
  unfold url.Encode. generalize url.QueryEscape. intros esc.
  destruct params as [[a|] [b|] [c|] [d|]]; vm_compute; reflexivity.
Qed.

Lemma Encode_urlParams params :
  url.Encode (urlParams params) =
  String.concat "&"
    (List.map (fun '(k, v) => k +:+ "=" +:+ url.QueryEscape v) (present params)).
Proof.
  rewrite Encode_urlParams_escaped.
  destruct params as [[a|] [b|] [c|] [d|]]; reflexivity.
Qed.

(** C5.  When the base URL and the resource path parse, the request of
    [newListContextsRequest] is made from the joined URL with, as its
    query, the fields of the parameters that are present and only
    those, each as [name=value] under its fixed name, in the order id,
    slug, type, token, joined by [&]; a field that is absent adds
    nothing.  Each value is query-escaped: it is made of unreserved
    bytes, [%] and [+] only, and unescapes to the value. *)
Theorem newListContextsRequest_query c params base joined :
  url_Parse (server c) = Ok base ->
  URL_Parse base "context" = Ok joined ->
  let query :=
    String.concat "&"
      (List.map (fun '(k, v) => k +:+ "=" +:+ url.QueryEscape v) (present params)) in
  url.Encode (urlParams params) = query
  /\ newListContextsRequest c params =
     Returns (newHTTPRequest c "GET" (URL_String (url.set_RawQuery joined query)))
  /\ Forall (fun '(k, v) =>
               GoStrings.all queryText (url.QueryEscape v) = true
               /\ url.QueryUnescape (url.QueryEscape v) = Some v)
       (present params).
Proof.
  intros Hbase Hjoined query. split; [apply Encode_urlParams|]. split.
  - unfold newListContextsRequest. rewrite Hbase, Hjoined, Encode_urlParams. reflexivity.
  - apply Forall_forall. intros [k v] _.
    split; [apply QueryEscape_queryText | apply QueryUnescape_QueryEscape].
Qed.

(** *** Headers *)

Lemma newHTTPRequest_headers c method url req err :
  newHTTPRequest c method url = (Some req, err) -> carries_headers c req.
Proof.
  unfold newHTTPRequest, http.NewRequest.
  destruct (http.validMethod _); [|discriminate].
  destruct (url_Parse url) as [u|e]; [|discriminate].
  intros [= <- _]. split; vm_compute; reflexivity.
Qed.

(** C7.  A request that any of the client's builders returns, for
    listing or for deleting, has under [circle-token] the client's token
    and under [Accept] the value [application/json], each once. *)
Theorem produced_carries_headers c req :
  produced c req -> carries_headers c req.
Proof.
  intros [method url err H | params err H | contextID err H].
  - exact (newHTTPRequest_headers _ _ _ _ _ H).
  - unfold newListContextsRequest in H.
    destruct (url_Parse (server c)) as [base|e]; [|discriminate].
    destruct (URL_Parse base "context") as [joined|e]; [|discriminate].
    injection H as H. exact (newHTTPRequest_headers _ _ _ _ _ H).
  - unfold newDeleteContextRequest in H.
    destruct (url_Parse (server c)) as [base|e]; [|discriminate].
    destruct (URL_Parse base _) as [joined|e]; [|discriminate].
    injection H as H. exact (newHTTPRequest_headers _ _ _ _ _ H).
Qed.

(** *** URLs that do not parse *)

Lemma newListContextsRequest_base_error c params e :
  url_Parse (server c) = Err e ->
  newListContextsRequest c params = Returns (None, Some e).
Proof. intros H. unfold newListContextsRequest. rewrite H. reflexivity. Qed.

Lemma newDeleteContextRequest_base_error c contextID e :
  url_Parse (server c) = Err e ->
  newDeleteContextRequest c contextID = Returns (None, Some e).
Proof. intros H. unfold newDeleteContextRequest. rewrite H. reflexivity. Qed.

Lemma newListContextsRequest_path_error c params base e :
  url_Parse (server c) = Ok base ->
  URL_Parse base "context" = Err e ->
  newListContextsRequest c params = Returns (None, Some e).
Proof. intros H1 H2. unfold newListContextsRequest. rewrite H1, H2. reflexivity. Qed.

(** The path of a delete request that does not parse is not reported:
    the nil URL is dereferenced. *)
Lemma newDeleteContextRequest_path_error c contextID base e :
  url_Parse (server c) = Ok base ->
  URL_Parse base ("context/" +:+ contextID) = Err e ->
  newDeleteContextRequest c contextID = Panics nil_pointer_dereference.
Proof. intros H1 H2. unfold newDeleteContextRequest. rewrite H1, H2. reflexivity. Qed.

Lemma listContexts_request_error c params e w :
  newListContextsRequest c params = Returns (None, Some e) ->
  listContexts c params w = Returns ((None, Some e), w).
Proof.
  intros H. unfold listContexts, mbind, IO_bind, bind, pure. rewrite H. reflexivity.
Qed.

Lemma DeleteContext_request_error c contextID e w :
  newDeleteContextRequest c contextID = Returns (None, Some e) ->
  DeleteContext c contextID w = Returns (Some e, w).
Proof.
  intros H. unfold DeleteContext, mbind, IO_bind, bind, pure. rewrite H. reflexivity.
Qed.

Lemma DeleteContext_request_panic c contextID p w :
  newDeleteContextRequest c contextID = Panics p ->
  DeleteContext c contextID w = Panics p.
Proof.
  intros H. unfold DeleteContext, mbind, IO_bind, bind, pure. rewrite H. reflexivity.
Qed.

Lemma HasSuffix_app (s t : string) :
  GoStrings.HasSuffix (s +:+ t) t = true.
Proof.
  induction s as [|a s IH].
  - change (EmptyString +:+ t) with t.
    destruct t as [|b t]; cbn [GoStrings.HasSuffix]; [reflexivity|].
    rewrite String.eqb_refl. reflexivity.
  - change (String a s +:+ t) with (String a (s +:+ t)).
    cbn [GoStrings.HasSuffix]. rewrite IH. apply orb_true_r.
Qed.

Lemma NewClient_server srv tok :
  server (NewClient srv tok) = (if GoStrings.HasSuffix srv "/" then srv else srv +:+ "/")
  /\ GoStrings.HasSuffix (server (NewClient srv tok)) "/" = true.
Proof.
  unfold NewClient. cbn [server].
  destruct (GoStrings.HasSuffix srv "/") eqn:E; cbn [negb]; split; trivial.
  apply HasSuffix_app.
Qed.

(** C10.  [NewClient] has no error to return and reads no URL: for every
    server string and token it gives the client with that token, the
    server string with its slash, and the zero [http.Client].  When that
    server string does not parse, each operation finds out as it builds
    its first request and returns the parse error, with nothing sent:
    the world is as it was. *)
Theorem NewClient_defers_parse_error srv tok :
  let c := NewClient srv tok in
  (token c = tok
   /\ server c = (if GoStrings.HasSuffix srv "/" then srv else srv +:+ "/")
   /\ client c = http_Client_Do)
  /\ forall e, url_Parse (server c) = Err e ->
     forall params contextID org vcs name fuel w,
       newListContextsRequest c params = Returns (None, Some e)
       /\ newDeleteContextRequest c contextID = Returns (None, Some e)
       /\ listContexts c params w = Returns ((None, Some e), w)
       /\ DeleteContext c contextID w = Returns (Some e, w)
       /\ Contexts (S fuel) c org vcs w = Returns (([], Some e), w)
       /\ ContextByName (S fuel) c org vcs name w = Returns ((None, Some e), w).
Proof.
  intros c. split.
  - split; [reflexivity|]. split; [apply NewClient_server | reflexivity].
  - intros e He params contextID org vcs name fuel w.
    pose proof (fun p => listContexts_request_error c p e w
                  (newListContextsRequest_base_error c p e He)) as Hlist.
    split; [apply newListContextsRequest_base_error, He|].
    split; [apply newDeleteContextRequest_base_error, He|].
    split; [apply Hlist|].
    split; [apply DeleteContext_request_error, newDeleteContextRequest_base_error, He|].
    split.
    + unfold Contexts.
      match goal with |- listAllContexts _ _ ?p _ = _ =>
        rewrite (@listAllContexts_step runtime), (Hlist p) end.
      reflexivity.
    + unfold ContextByName.
      match goal with |- getContextByName _ _ ?p _ _ = _ =>
        rewrite (@getContextByName_step runtime), (Hlist p) end.
      reflexivity.
Qed.

(** *** Responses *)

Lemma find_field_message (f : json.field ErrorResponse) (key : string) :
  json.find_field [f] key = if json.equalFold (json.name f) key then Some f else None.
Proof.
  unfold json.find_field. cbn [List.find].
  destruct (String.eqb (json.name f) key) eqn:E; [|reflexivity].
  apply String.eqb_eq in E. subst key.
  unfold json.equalFold. rewrite String.eqb_refl. reflexivity.
Qed.

(** The struct decoder on an [ErrorResponse] computes [last_message];
    a member of a wrong type leaves a type error, and nothing stops the
    decoder. *)
Lemma object_members_ErrorResponse members dest saved :
  exists dest',
    json.object_members
      [ {| json.name := "message";
           json.store_field := fun v dest saved =>
             match json.store_string_ptr "message" v (Message dest) saved with
             | Err e => Err e
             | Ok (m, saved') => Ok (set_Message dest m, saved')
             end |} ]
      members dest saved
    = Ok (dest',
          match saved with
          | Some e => Some e
          | None =>
              match last_message members (Message dest) with
              | Some _ => None
              | None => Some (json_UnmarshalTypeError "message")
              end
          end)
    /\ (saved = None -> forall m, last_message members (Message dest) = Some m ->
         dest' = {| Message := m |}).
Proof.
  revert dest saved.
  induction members as [|[key v] members IH]; intros dest saved.
  - exists dest. cbn [json.object_members last_message]. split.
    + destruct saved; reflexivity.
    + intros _ m [= <-]. destruct dest; reflexivity.
  - cbn [json.object_members last_message]. rewrite find_field_message.
    cbn [json.name json.store_field].
    destruct (json.equalFold "message" key); [|apply IH].
    destruct v;
      cbn [json.store_field json.store_string_ptr json.saveError set_Message Message].
    2-3,5-6:
      (match goal with |- context [json.object_members _ _ ?d ?sv] =>
         destruct (IH d sv) as (dest' & Heq & _) end;
       exists dest'; split;
       [ rewrite Heq; destruct saved; reflexivity
       | intros _ m [=] ]).
    all: match goal with |- context [json.object_members _ _ ?d ?sv] =>
           destruct (IH d sv) as (dest' & Heq & Hdest) end;
         exists dest'; split; [exact Heq | exact Hdest].
Qed.

(** What [json.Unmarshal] makes of an error body.  A text that is no
    JSON is a syntax error; a document with a string message gives the
    message; a document with a value of a wrong type, at the top or
    under [message], is a type error; and a well-typed document without
    a message decodes without error, to a nil [Message]. *)
Lemma decodeError_cases (bodyBytes : string) :
  match json_scan bodyBytes with
  | None => decodeError bodyBytes = ({| Message := None |}, Some json_SyntaxError)
  | Some v =>
      match ApiError_message v with
      | Some message => decodeError bodyBytes = ({| Message := Some message |}, None)
      | None =>
          if no_message v then decodeError bodyBytes = ({| Message := None |}, None)
          else exists dest field,
              decodeError bodyBytes = (dest, Some (json_UnmarshalTypeError field))
      end
  end.
Proof.
  unfold decodeError, json.Unmarshal.
  destruct (json_scan bodyBytes) as [v|]; [|reflexivity].
  unfold store_ErrorResponse, json.store_struct, ApiError_message, no_message.
  destruct v as [ | b | n | s | vs | members]; try reflexivity.
  1-4: eexists _, _; reflexivity.
  destruct (object_members_ErrorResponse members {| Message := None |} None)
    as (dest' & Heq & Hdest).
  rewrite Heq. cbn [Message] in *.
  destruct (last_message members None) as [[message|]|].
  - rewrite (Hdest eq_refl _ eq_refl). reflexivity.
  - rewrite (Hdest eq_refl _ eq_refl). reflexivity.
  - eexists _, _. reflexivity.
Qed.

Lemma DeleteContext_response c contextID req w resp w' bodyBytes :
  newDeleteContextRequest c contextID = Returns (Some req, None) ->
  client c req w = (Ok resp, w') ->
  http.Body resp = Ok bodyBytes ->
  DeleteContext c contextID w =
  if (http.StatusCode resp =? 200)%Z then Returns (None, w')
  else
    match decodeError bodyBytes with
    | (_, Some err) => Returns (Some err, w')
    | (dest, None) =>
        match Message dest with
        | Some message => Returns (Some (errors_New message), w')
        | None => Panics nil_pointer_dereference
        end
    end.
Proof.
  intros Hreq Hdo Hbody.
  unfold DeleteContext, mbind, IO_bind, bind, pure, Do, decodeError.
  rewrite Hreq, Hdo, Hbody.
  destruct (http.StatusCode resp =? 200)%Z; cbn [negb]; [reflexivity|].
  destruct (json.Unmarshal _ _ _ _) as [dest [err|]]; [reflexivity|].
  destruct (Message dest); reflexivity.
Qed.

Lemma listContexts_error_response c params req w resp w' bodyBytes :
  newListContextsRequest c params = Returns (Some req, None) ->
  client c req w = (Ok resp, w') ->
  http.Body resp = Ok bodyBytes ->
  http.StatusCode resp <> 200%Z ->
  listContexts c params w =
  match decodeError bodyBytes with
  | (_, Some err) => Returns ((None, Some err), w')
  | (dest, None) =>
      match Message dest with
      | Some message => Returns ((None, Some (errors_New message)), w')
      | None => Panics nil_pointer_dereference
      end
  end.
Proof.
  intros Hreq Hdo Hbody Hstatus.
  unfold listContexts, mbind, IO_bind, bind, pure, Do, decodeError.
  rewrite Hreq, Hdo, Hbody.
  apply Z.eqb_neq in Hstatus. rewrite Hstatus. cbn [negb].
  destruct (json.Unmarshal _ _ _ _) as [dest [err|]]; [reflexivity|].
  destruct (Message dest); reflexivity.
Qed.

(** The ways a fetch returns an error once its request is built: the
    transport fails, the body cannot be read, or, on status 200, the body
    does not decode as a page.  (For the other statuses see
    [listContexts_error_response].) *)
Lemma listContexts_failures c params req w :
  newListContextsRequest c params = Returns (Some req, None) ->
  (forall err w',
      client c req w = (Err err, w') ->
      listContexts c params w = Returns ((None, Some err), w'))
  /\ (forall resp err w',
        client c req w = (Ok resp, w') ->
        http.Body resp = Err err ->
        listContexts c params w = Returns ((None, Some err), w'))
  /\ (forall resp bodyBytes w',
        client c req w = (Ok resp, w') ->
        http.Body resp = Ok bodyBytes ->
        http.StatusCode resp = 200%Z ->
        listContexts c params w =
        match json.Unmarshal json_scan store_listContextsResponse bodyBytes
                {| Items := []; NextPageToken := None; of_client := c;
                   of_params := params |} with
        | (_, Some err) => Returns ((None, Some err), w')
        | (dest, None) => Returns ((Some dest, None), w')
        end).
Proof.
  intros Hreq. repeat split.
  - intros err w' Hdo.
    unfold listContexts, mbind, IO_bind, bind, pure, Do. rewrite Hreq, Hdo. reflexivity.
  - intros resp err w' Hdo Hbody.
    unfold listContexts, mbind, IO_bind, bind, pure, Do. rewrite Hreq, Hdo, Hbody.
    reflexivity.
  - intros resp bodyBytes w' Hdo Hbody Hstatus.
    unfold listContexts, mbind, IO_bind, bind, pure, Do.
    rewrite Hreq, Hdo, Hbody, Hstatus. cbn [Z.eqb Pos.eqb negb].
    destruct (json.Unmarshal _ _ _ _) as [dest [err|]]; reflexivity.
Qed.


(** An error body that is no JSON, or has a value of a wrong type, makes
    both operations return the decoder's error; a well-typed one without
    a message makes them dereference the nil [Message]. *)
Lemma error_response_without_message c params contextID w resp w' bodyBytes :
  http.Body resp = Ok bodyBytes ->
  http.StatusCode resp <> 200%Z ->
  forall outcome : option error + panic,
    match json_scan bodyBytes with
    | None => outcome = inl (Some json_SyntaxError)
    | Some v =>
        ApiError_message v = None
        /\ if no_message v then outcome = inr nil_pointer_dereference
           else exists dest field,
               decodeError bodyBytes = (dest, Some (json_UnmarshalTypeError field))
               /\ outcome = inl (Some (json_UnmarshalTypeError field))
    end ->
    (forall req,
        newDeleteContextRequest c contextID = Returns (Some req, None) ->
        client c req w = (Ok resp, w') ->
        DeleteContext c contextID w =
        match outcome with
        | inl err => Returns (err, w')
        | inr p => Panics p
        end)
    /\ (forall req,
          newListContextsRequest c params = Returns (Some req, None) ->
          client c req w = (Ok resp, w') ->
          listContexts c params w =
          match outcome with
          | inl err => Returns ((None, err), w')
          | inr p => Panics p
          end).
Proof.
  intros Hbody Hstatus outcome Hout.
  pose proof (decodeError_cases bodyBytes) as Hdecode.
  assert (match decodeError bodyBytes with
          | (_, Some err) => outcome = inl (Some err)
          | (dest, None) => Message dest = None /\ outcome = inr nil_pointer_dereference
          end) as H.
  { destruct (json_scan bodyBytes) as [v|].
    - destruct Hout as [Hnone Hout]. rewrite Hnone in Hdecode.
      destruct (no_message v).
      + rewrite Hdecode. split; [reflexivity | exact Hout].
      + destruct Hout as (dest & field & -> & ->). reflexivity.
    - rewrite Hdecode. exact Hout. }
  split; intros req Hreq Hdo.
  - rewrite (DeleteContext_response _ _ _ _ _ _ _ Hreq Hdo Hbody).
    apply Z.eqb_neq in Hstatus. rewrite Hstatus.
    destruct (decodeError bodyBytes) as [dest [err|]]; [rewrite H; reflexivity|].
    destruct H as [-> ->]. reflexivity.
  - rewrite (listContexts_error_response _ _ _ _ _ _ _ Hreq Hdo Hbody Hstatus).
    destruct (decodeError bodyBytes) as [dest [err|]]; [rewrite H; reflexivity|].
    destruct H as [-> ->]. reflexivity.
Qed.

End Requests.

(** ** The reference runtime: joining paths *)

Section Joining.

Import GoStrings.

Lemma append_assoc (s t u : string) : (s +:+ t) +:+ u = s +:+ (t +:+ u).
Proof.
  induction s as [|a s IH]; [reflexivity|].
  change (String a ((s +:+ t) +:+ u) = String a (s +:+ (t +:+ u))). now rewrite IH.
Qed.

Lemma HasSuffix_slash (s : string) :
  HasSuffix s "/" = true -> exists s0, s = s0 +:+ "/".
Proof.
  induction s as [|a s IH]; cbn [HasSuffix]; [discriminate|].
  destruct (String.eqb (String a s) "/") eqn:E.
  - apply String.eqb_eq in E. exists EmptyString. exact E.
  - cbn [orb]. intros H. destruct (IH H) as [s0 ->]. exists (String a s0). reflexivity.
Qed.

Lemma CutLastByte_slash (s0 : string) :
  CutLastByte (s0 +:+ "/") "/" = Some (s0, EmptyString).
Proof.
  induction s0 as [|a s0 IH]; [reflexivity|].
  change (String a s0 +:+ "/") with (String a (s0 +:+ "/")).
  cbn [CutLastByte]. rewrite IH. reflexivity.
Qed.

(** The merge keeps the whole of a base that ends in a slash. *)
Lemma merge_keeps_base (base ref : string) :
  HasSuffix base "/" = true ->
  ref <> EmptyString ->
  HasPrefix ref "/" = false ->
  Ref.merge base ref = base +:+ ref.
Proof.
  intros Hslash Hne Hrel. destruct (HasSuffix_slash _ Hslash) as [s0 ->].
  unfold Ref.merge. apply String.eqb_neq in Hne. rewrite Hne, Hrel, CutLastByte_slash.
  symmetry. apply append_assoc.
Qed.

Lemma Split_cons (s : string) : exists elem elems, Ref.Split s = elem :: elems.
Proof.
  destruct s as [|a s]; cbn [Ref.Split]; [eauto|].
  destruct (Ascii.eqb a "/"); [eauto|]. destruct (Ref.Split s); eauto.
Qed.

Lemma concat_Split (s : string) : String.concat "/" (Ref.Split s) = s.
Proof.
  induction s as [|a s IH]; [reflexivity|]. cbn [Ref.Split].
  destruct (Split_cons s) as (elem & elems & E). rewrite E in *.
  destruct (Ascii.eqb_spec a "/") as [->|_].
  - change (String.concat "/" (EmptyString :: elem :: elems))
      with (String "/" (String.concat "/" (elem :: elems))).
    now rewrite IH.
  - destruct elems as [|elem' elems].
    + cbn [String.concat] in *. now rewrite IH.
    + change (String.concat "/" (String a elem :: elem' :: elems))
        with (String a (String.concat "/" (elem :: elem' :: elems))).
      now rewrite IH.
Qed.

Lemma removeDotSegments_dotless (src dst : list string) :
  forallb (fun elem => negb (String.eqb elem "." || String.eqb elem "..")) src = true ->
  Ref.removeDotSegments src dst = dst ++ src.
Proof.
  revert dst. induction src as [|elem src IH]; intros dst; cbn [forallb Ref.removeDotSegments].
  - now rewrite app_nil_r.
  - intros [Helem Hsrc]%andb_prop.
    apply negb_true_iff, orb_false_elim in Helem as [-> ->].
    rewrite IH by exact Hsrc. now rewrite <- app_assoc.
Qed.

Lemma last_dotless (src : list string) :
  src <> [] ->
  forallb (fun elem => negb (String.eqb elem "." || String.eqb elem "..")) src = true ->
  String.eqb (List.last src EmptyString) "." || String.eqb (List.last src EmptyString) ".."
  = false.
Proof.
  induction src as [|elem src IH]; [congruence|]. intros _.
  cbn [forallb]. intros [Helem Hsrc]%andb_prop.
  destruct src as [|elem' src]; cbn [List.last].
  - now apply negb_true_iff in Helem.
  - apply IH; [discriminate | exact Hsrc].
Qed.

Lemma substring_all (s : string) (n : nat) :
  String.length s <= n -> String.substring 0 n s = s.
Proof.
  revert n. induction s as [|a s IH]; intros [|n] H; cbn in *; try reflexivity; try lia.
  rewrite IH by lia. reflexivity.
Qed.

Lemma TrimPrefix_slash (s : string) : Ref.TrimPrefix (String "/" s) "/" = s.
Proof.
  unfold Ref.TrimPrefix. cbn [HasPrefix Ascii.eqb Bool.eqb andb String.length String.substring].
  destruct s; apply substring_all; lia.
Qed.

(** Against a base path that is absolute, ends in a slash and has no dot
    segments, a relative path without dot segments is appended. *)
Lemma resolvePath_appends (base ref : string) :
  HasPrefix base "/" = true ->
  HasSuffix base "/" = true ->
  ref <> EmptyString ->
  HasPrefix ref "/" = false ->
  Ref.dotless (base +:+ ref) = true ->
  Ref.resolvePath base ref = base +:+ ref.
Proof.
  intros Habs Hslash Hne Hrel Hdots. unfold Ref.resolvePath.
  rewrite (merge_keeps_base _ _ Hslash Hne Hrel).
  destruct base as [|a base]; [discriminate|].
  cbn [HasPrefix] in Habs. apply andb_prop in Habs as [Ha _].
  apply Ascii.eqb_eq in Ha. subst a.
  change (String "/" base +:+ ref) with (String "/" (base +:+ ref)) in *.
  change (String.eqb (String "/" (base +:+ ref)) EmptyString) with false. cbv iota.
  unfold Ref.dotless in Hdots.
  rewrite (removeDotSegments_dotless _ [] Hdots). cbn [app].
  rewrite last_dotless; [| | exact Hdots].
  - rewrite concat_Split, TrimPrefix_slash. reflexivity.
  - destruct (Split_cons (String "/" (base +:+ ref))) as (e & es & ->). discriminate.
Qed.

Lemma escape_byte_canonical (c : ascii) :
  url.shouldEscape c url.encodePath = false ->
  url.escape_byte c url.encodePath = String c EmptyString.
Proof. intros H. unfold url.escape_byte. rewrite H. reflexivity. Qed.

Lemma unescape_byte_canonical (c : ascii) (s : string) :
  url.shouldEscape c url.encodePath = false ->
  url.unescape (String c s) url.encodePath = String c <$> url.unescape s url.encodePath.
Proof.
  destruct c as [[] [] [] [] [] [] [] []]; intros H;
    first [ discriminate H | reflexivity ].
Qed.

Lemma escape_canonical (path : string) :
  Ref.canonicalPath path = true -> url.escape path url.encodePath = path.
Proof.
  induction path as [|c path IH]; [reflexivity|].
  cbn [Ref.canonicalPath all]. intros [Hc Hpath]%andb_prop.
  apply negb_true_iff in Hc. cbn [url.escape].
  rewrite (escape_byte_canonical _ Hc), (IH Hpath). reflexivity.
Qed.

Lemma unescape_canonical (path : string) :
  Ref.canonicalPath path = true -> url.unescape path url.encodePath = Some path.
Proof.
  induction path as [|c path IH]; [reflexivity|].
  cbn [Ref.canonicalPath all]. intros [Hc Hpath]%andb_prop.
  apply negb_true_iff in Hc.
  rewrite (unescape_byte_canonical _ _ Hc), (IH Hpath). reflexivity.
Qed.

Lemma canonicalPath_app (s t : string) :
  Ref.canonicalPath (s +:+ t) = Ref.canonicalPath s && Ref.canonicalPath t.
Proof.
  induction s as [|a s IH]; [reflexivity|].
  change (String a s +:+ t) with (String a (s +:+ t)).
  unfold Ref.canonicalPath in *. cbn [all]. rewrite IH. apply andb_assoc.
Qed.

Lemma HasPrefix_app (s t p : string) :
  HasPrefix s p = true -> HasPrefix (s +:+ t) p = true.
Proof.
  revert s. induction p as [|b p IH]; intros s; [intros _; destruct (s +:+ t); reflexivity|].
  destruct s as [|a s]; [discriminate|].
  change (String a s +:+ t) with (String a (s +:+ t)). cbn [HasPrefix].
  intros [-> H]%andb_prop. rewrite (IH _ H). reflexivity.
Qed.

(** The path of an absolute, canonical path, as [URL.String] prints it
    after the scheme and the authority. *)
Lemma EscapedPath_canonical (u : url.URL) :
  url.RawPath u = EmptyString ->
  HasPrefix (url.Path u) "/" = true ->
  Ref.canonicalPath (url.Path u) = true ->
  Ref.EscapedPath u = url.Path u.
Proof.
  intros Hraw Habs Hcanon. unfold Ref.EscapedPath. rewrite Hraw. cbn [String.eqb negb andb].
  destruct (String.eqb_spec (url.Path u) "*") as [E|_].
  - rewrite E in Habs. discriminate.
  - apply escape_canonical, Hcanon.
Qed.

Lemma append_nil_r (s : string) : s +:+ "" = s.
Proof. induction s as [|a s IH]; [reflexivity|]. change (String a (s +:+ "") = String a s). now rewrite IH. Qed.

(** [URL.String] on a URL with an absolute path and neither opaque part
    nor fragment. *)
Lemma URL_String_absolute (u : url.URL) :
  url.Opaque u = EmptyString ->
  url.Fragment u = EmptyString ->
  url.Path u <> EmptyString ->
  HasPrefix (Ref.EscapedPath u) "/" = true ->
  Ref.URL_String u = (Ref.beforePath u +:+ Ref.EscapedPath u) +:+ Ref.afterPath u.
Proof.
  intros Hopaque Hfrag Hpath Habs.
  unfold Ref.URL_String, Ref.beforePath, Ref.afterPath.
  rewrite Hopaque, Hfrag. apply String.eqb_neq in Hpath. rewrite Hpath.
  destruct (Ref.EscapedPath u) as [|a path]; [discriminate|].
  cbn [HasPrefix] in Habs. apply andb_prop in Habs as [Ha _].
  apply Ascii.eqb_eq in Ha. subst a.
  cbn [String.eqb negb andb orb HasPrefix Ascii.eqb Bool.eqb].
  replace (HasPrefix path "") with true by (destruct path; reflexivity).
  rewrite !orb_true_r.
  change (ContainsByte (Ref.Cut (String "/" path) "/").1 ":") with false.
  rewrite andb_false_r. cbn [negb andb orb].
  destruct (url.ForceQuery u || negb (String.eqb (url.RawQuery u) "")).
  - now rewrite <- append_assoc.
  - now rewrite append_nil_r.
Qed.



End Joining.

(** ** Runs on the reference runtime *)

Section Runs.

Import Example.

(** The two pages of the listing that have a token, as a traversal
    walks them. *)
Lemma acme_walked (broken : bool) :
  walked (acme broken) acmeParams [] [[c1; c2]; [c3; c4]]
    (set_PageToken acmeParams (Some "p3")) (fetch2 broken).
Proof.
  apply (walked_cons _ _ _ (page broken [c1; c2] (Some "p2") None) "p2" (fetch1 broken));
    [destruct broken; reflexivity | reflexivity |].
  apply (walked_cons _ _ _ (page broken [c3; c4] (Some "p3") (Some "p2")) "p3"
           (fetch2 broken));
    [destruct broken; reflexivity | reflexivity |].
  apply walked_nil.
Qed.

Lemma acme_chain :
  chain (acme false) acmeParams [] [[c1; c2]; [c3; c4]; [c5; c2]] (fetch3 false).
Proof.
  apply (chain_end _ _ _ [[c1; c2]; [c3; c4]] _ _ (page false [c5; c2] None (Some "p3")) _
           (acme_walked false)); reflexivity.
Qed.

(** The requests of a whole traversal: one for each page, in order. *)
Lemma acme_sent :
  sent (fetch3 false) =
  [ ("GET", "https://circleci.com/api/v2/context?owner-slug=gh%2Facme");
    ("GET", "https://circleci.com/api/v2/context?owner-slug=gh%2Facme&page-token=p2");
    ("GET", "https://circleci.com/api/v2/context?owner-slug=gh%2Facme&page-token=p3") ].
Proof. reflexivity. Qed.

(** Three pages of two items, one context on two of the pages: all six
    come back, in the order of the pages. *)
Lemma listAllContexts_collects_chain_witness :
  chain (acme false) acmeParams [] [[c1; c2]; [c3; c4]; [c5; c2]] (fetch3 false)
  /\ 3 <= 3
  /\ Contexts 3 (acme false) "acme" "gh" []
     = Returns (([c1; c2; c3; c4; c5; c2], None), fetch3 false).
Proof.
  split; [exact acme_chain|]. split; [lia|].
  apply (listAllContexts_collects_chain _ _ _ _ _ acme_chain 3);
    [cbn [length]; lia | reflexivity].
Defined.

(** [deploy] is on the second page twice and on the third: the first of
    the second page is returned after two requests, and the third page,
    which would fail, is not asked for. *)
Lemma getContextByName_first_match_witness :
  walked (acme true) acmeParams [] [[c1; c2]] (set_PageToken acmeParams (Some "p2"))
    (fetch1 true)
  /\ listContexts (acme true) (set_PageToken acmeParams (Some "p2")) (fetch1 true)
     = Returns ((Some (page true [c3; c4] (Some "p3") (Some "p2")), None), fetch2 true)
  /\ List.find (fun context => String.eqb (Name context) "deploy") (concat [[c1; c2]]) = None
  /\ 1 < 2
  /\ ContextByName 2 (acme true) "acme" "gh" "deploy" []
     = Returns ((Some c3, None), fetch2 true)
  /\ sent (fetch2 true) =
     [ ("GET", "https://circleci.com/api/v2/context?owner-slug=gh%2Facme");
       ("GET", "https://circleci.com/api/v2/context?owner-slug=gh%2Facme&page-token=p2") ].
Proof.
  assert (walked (acme true) acmeParams [] [[c1; c2]] (set_PageToken acmeParams (Some "p2"))
            (fetch1 true)) as Hwalk.
  { apply (walked_cons _ _ _ (page true [c1; c2] (Some "p2") None) "p2" (fetch1 true));
      [reflexivity | reflexivity | apply walked_nil]. }
  split; [exact Hwalk|]. split; [reflexivity|]. split; [reflexivity|]. split; [lia|].
  split; [|reflexivity].
  apply (getContextByName_first_match (acme true) acmeParams "deploy" [] [[c1; c2]]
           (set_PageToken acmeParams (Some "p2")) (fetch1 true)
           (page true [c3; c4] (Some "p3") (Some "p2")) (fetch2 true) Hwalk);
    [reflexivity | reflexivity | left; eexists; reflexivity | cbn [length]; lia | reflexivity].
Defined.

(** Without a context of the name on any of the three pages, the error
    names it. *)
Lemma ContextByName_not_found :
  ContextByName 3 (acme false) "acme" "gh" "release" []
  = Returns ((None, Some (fmt_Errorf "Cannot find context named 'release'")), fetch3 false).
Proof. reflexivity. Qed.


(** Slug, type and token present, the id absent; the values have a
    slash, a space, an ampersand and an equals sign to escape. *)
Lemma newListContextsRequest_query_witness :
  let c := NewClient "https://circleci.com/api/v2" "secret" in
  let params :=
    {| OwnerID := None; OwnerSlug := Some "gh/acme corp";
       OwnerType := Some "organization"; PageToken := Some "a&b=c" |} in
  url_Parse (server c) = Ok apiBase
  /\ URL_Parse apiBase "context" = Ok apiContext
  /\ url.Encode (urlParams params)
     = "owner-slug=gh%2Facme+corp&owner-type=organization&page-token=a%26b%3Dc"
  /\ newListContextsRequest c params
     = Returns (newHTTPRequest c "GET"
         ("https://circleci.com/api/v2/context"
          +:+ "?owner-slug=gh%2Facme+corp&owner-type=organization&page-token=a%26b%3Dc")).
Proof.
  cbv zeta. split; [reflexivity|]. split; [reflexivity|].
  pose proof (newListContextsRequest_query
                (NewClient "https://circleci.com/api/v2" "secret")
                {| OwnerID := None; OwnerSlug := Some "gh/acme corp";
                   OwnerType := Some "organization"; PageToken := Some "a&b=c" |}
                apiBase apiContext eq_refl eq_refl) as [Hquery [Hrequest _]].
  split; [exact Hquery | exact Hrequest].
Defined.

(** With no parameter present the URL has no query at all. *)
Lemma newListContextsRequest_no_params :
  newListContextsRequest (NewClient "https://circleci.com/api/v2" "secret") noParams
  = Returns (newHTTPRequest (NewClient "https://circleci.com/api/v2" "secret") "GET"
               "https://circleci.com/api/v2/context").
Proof. reflexivity. Qed.

(** The delete request of a client carries the two headers, whatever
    the case the key is asked in. *)
Lemma produced_carries_headers_witness :
  produced (NewClient "https://circleci.com/api/v2" "secret") deleteAbc
  /\ carries_headers (NewClient "https://circleci.com/api/v2" "secret") deleteAbc
  /\ http.Get (http.Header_ deleteAbc) "Circle-Token" = "secret"
  /\ http.Get (http.Header_ deleteAbc) "accept" = "application/json".
Proof.
  assert (produced (NewClient "https://circleci.com/api/v2" "secret") deleteAbc) as H.
  { apply (produced_newDeleteContextRequest _ _ "abc" None). reflexivity. }
  split; [exact H|].
  split; [exact (produced_carries_headers _ _ H)|]. split; reflexivity.
Defined.


(** A server string that starts with a colon has no scheme: the client
    is made all the same, and its operations return the parse error
    without a request sent. *)
Lemma NewClient_defers_parse_error_witness :
  server (NewClient ":" "secret") = ":/"
  /\ url_Parse (server (NewClient ":" "secret")) = Err (url_Error "missing protocol scheme")
  /\ DeleteContext (NewClient ":" "secret") "abc" []
     = Returns (Some (url_Error "missing protocol scheme"), [])
  /\ Contexts 1 (NewClient ":" "secret") "acme" "gh" []
     = Returns (([], Some (url_Error "missing protocol scheme")), [])
  /\ ContextByName 1 (NewClient ":" "secret") "acme" "gh" "deploy" []
     = Returns ((None, Some (url_Error "missing protocol scheme")), []).
Proof.
  split; [reflexivity|]. split; [reflexivity|].
  destruct (NewClient_defers_parse_error ":" "secret") as [_ H].
  destruct (H (url_Error "missing protocol scheme") eq_refl noParams "abc" "acme" "gh"
              "deploy" 0 []) as (_ & _ & _ & Hdelete & Hall & Hfind).
  split; [exact Hdelete|]. split; [exact Hall | exact Hfind].
Defined.

(** C1, where the code departs from it.  A status other than 200 with a
    body that is JSON but has no message, or a [null] one, makes
    [DeleteContext] and [listContexts] dereference the nil [Message]:
    they panic, and return no error at all.  (A body that is no JSON,
    or whose message has a wrong type, does make them return the
    decoder's error.) *)
Theorem error_body_without_message_panics :
  DeleteContext (answering 500 "{}") "abc" [] = Panics nil_pointer_dereference
  /\ listContexts (answering 500 "{}") acmeParams [] = Panics nil_pointer_dereference
  /\ DeleteContext (answering 500 "{'message':null}") "abc" []
     = Panics nil_pointer_dereference
  /\ listContexts (answering 500 "{'message':null}") acmeParams []
     = Panics nil_pointer_dereference
  /\ DeleteContext (answering 500 "Internal Server Error") "abc" []
     = Returns (Some json_SyntaxError, [deleteAbc])
  /\ DeleteContext (answering 500 "{'message':500}") "abc" []
     = Returns (Some (json_UnmarshalTypeError "message"), [deleteAbc]).
Proof. repeat split; reflexivity. Qed.

(** C6, where the code departs from it.  A context ID that makes the
    resource path unparsable, here by a bad escape, is met by no
    [InvalidURL] error: [newDeleteContextRequest] drops the error of
    [queryURL.Parse] and dereferences the nil URL, and [DeleteContext]
    panics with it.  (The base URL is checked, and so is the path of
    the listing.) *)
Theorem delete_path_error_panics :
  url_Parse (server (NewClient "https://circleci.com/api/v2" "secret")) = Ok apiBase
  /\ URL_Parse apiBase "context/%zz" = Err (url_Error "invalid URL escape")
  /\ newDeleteContextRequest (NewClient "https://circleci.com/api/v2" "secret") "%zz"
     = Panics nil_pointer_dereference
  /\ DeleteContext (NewClient "https://circleci.com/api/v2" "secret") "%zz" []
     = Panics nil_pointer_dereference.
Proof. repeat split; reflexivity. Qed.



(** The example of the specification, and the API's own base. *)
Lemma NewClient_join_examples :
  newListContextsRequest (NewClient "https://api.example.com" "secret") noParams
  = Returns (newHTTPRequest (NewClient "https://api.example.com" "secret") "GET"
               "https://api.example.com/context")
  /\ Ref.plainBase apiBase = true
  /\ URL_String apiBase = server (NewClient "https://circleci.com/api/v2" "secret")
  /\ newListContextsRequest (NewClient "https://circleci.com/api/v2" "secret") noParams
     = Returns (newHTTPRequest (NewClient "https://circleci.com/api/v2" "secret") "GET"
                  "https://circleci.com/api/v2/context").
Proof. repeat split; reflexivity. Qed.

(** What the slash is for: a client made by hand with the server string
    as given sends the listing request to the wrong path. *)
Lemma without_trailing_slash :
  newListContextsRequest
    {| token := "secret"; server := "https://circleci.com/api/v2";
       client := http_Client_Do |} noParams
  = Returns (newHTTPRequest (NewClient "https://circleci.com/api/v2" "secret") "GET"
               "https://circleci.com/api/context").
Proof. reflexivity. Qed.

End Runs.

(** * More properties of the client *)

Section Discipline.

Context {runtime : Runtime}.

Implicit Types (c : Client) (params : listContextsParams) (w : World).

(** X1.  The results keep Go's convention.  [listContexts] returns a
    response or an error, never both and never neither;
    [getContextByName] returns a context or an error, never both and
    never neither, and the context it returns has the name asked for;
    [listAllContexts] returns no items with an error. *)
Theorem results_are_exclusive c params name fuel w :
  (forall resp err w',
      listContexts c params w = Returns ((resp, err), w') ->
      (is_Some resp /\ err = None) \/ (resp = None /\ is_Some err))
  /\ (forall context err w',
        getContextByName fuel c params name w = Returns ((context, err), w') ->
        (exists x, context = Some x /\ Name x = name /\ err = None)
        \/ (context = None /\ is_Some err))
  /\ (forall contexts err w',
        listAllContexts fuel c params w = Returns ((contexts, err), w') ->
        err = None \/ (contexts = [] /\ is_Some err)).
Proof.
  split; [|split].
  - intros resp err w'.
    unfold listContexts, mbind, IO_bind, bind, pure, Do, ret, throw.
    destruct (newListContextsRequest c params) as [[[req|] [e|]] | p | ];
      try discriminate; try (intros [= <- <- <-]; right; eauto).
    destruct (client c req w) as [[resp0|e] w1]; [|intros [= <- <- <-]; right; eauto].
    destruct (http.Body resp0) as [bodyBytes|e]; [|intros [= <- <- <-]; right; eauto].
    destruct (negb _).
    + destruct (json.Unmarshal _ _ _ _) as [dest [e|]];
        [intros [= <- <- <-]; right; eauto|].
      destruct (Message dest); [intros [= <- <- <-]; right; eauto | discriminate].
    + destruct (json.Unmarshal _ _ _ _) as [dest [e|]];
        intros [= <- <- <-]; [right | left]; eauto.
  - revert params w. induction fuel as [|fuel IH]; intros params w context err w';
      [discriminate|].
    rewrite getContextByName_step.
    destruct (listContexts c params w) as [[[[resp|] [e|]] w1] | p | ];
      try discriminate; try (intros [= <- <- <-]; right; eauto).
    destruct (List.find _ (Items resp)) as [x|] eqn:Hfind.
    + intros [= <- <- <-]. left. exists x.
      apply find_some in Hfind as [_ Hname]. apply String.eqb_eq in Hname. eauto.
    + destruct (NextPageToken resp); [|intros [= <- <- <-]; right; eauto].
      destruct (getContextByName fuel c _ name w1) as [[[context0 [e|]] w2] | p | ] eqn:E;
        try discriminate; intros [= <- <- <-].
      * right. eauto.
      * destruct (IH _ _ _ _ _ E) as [H | [_ [? [=]]]]. left. exact H.
  - intros contexts [err|] w' H; [right | left; reflexivity].
    split; [exact (listAllContexts_error _ _ _ _ _ _ _ H) | eauto].
Qed.








(** X4.  A search by name gives up at the first fetch that returns an
    error: after pages without a context of the name, the error of the
    next fetch is returned with a nil context. *)
Theorem getContextByName_fails c params name w pages params' w1 resp err w' :
  walked c params w pages params' w1 ->
  List.find (fun context => String.eqb (Name context) name) (concat pages) = None ->
  listContexts c params' w1 = Returns ((resp, Some err), w') ->
  forall fuel, length pages < fuel ->
    getContextByName fuel c params name w = Returns ((None, Some err), w')
    /\ (forall org vcs, params = ownerParams org vcs ->
          ContextByName fuel c org vcs name w = Returns ((None, Some err), w')).
Proof.
  intros Hwalk Hnone Hfail fuel Hfuel.
  assert (getContextByName fuel c params name w = Returns ((None, Some err), w')) as H.
  { rewrite (getContextByName_walked _ _ _ _ _ _ _ Hwalk Hnone) by lia.
    destruct (fuel - length pages) as [|n] eqn:E; [lia|].
    rewrite getContextByName_step, Hfail. destruct resp; reflexivity. }
  split; [exact H | intros org vcs ->; exact H].
Qed.

(** X5.  What the transport returns as an error, and what reading the
    body returns as one, both operations return as it is, whatever the
    status: a 200 whose body cannot be read is a failed delete. *)
Theorem transport_errors_are_returned c params contextID w w' err :
  (forall req,
      newDeleteContextRequest c contextID = Returns (Some req, None) ->
      client c req w = (Err err, w')
      \/ (exists resp, client c req w = (Ok resp, w') /\ http.Body resp = Err err) ->
      DeleteContext c contextID w = Returns (Some err, w'))
  /\ (forall req,
        newListContextsRequest c params = Returns (Some req, None) ->
        client c req w = (Err err, w')
        \/ (exists resp, client c req w = (Ok resp, w') /\ http.Body resp = Err err) ->
        listContexts c params w = Returns ((None, Some err), w')
        /\ forall fuel name,
            listAllContexts (S fuel) c params w = Returns (([], Some err), w')
            /\ getContextByName (S fuel) c params name w
               = Returns ((None, Some err), w')).
Proof.
  split.
  - intros req Hreq H.
    unfold DeleteContext, mbind, IO_bind, bind, pure, Do, ret. rewrite Hreq.
    destruct H as [-> | (resp & -> & ->)]; reflexivity.
  - intros req Hreq H.
    assert (listContexts c params w = Returns ((None, Some err), w')) as Hlist.
    { unfold listContexts, mbind, IO_bind, bind, pure, Do, ret. rewrite Hreq.
      destruct H as [-> | (resp & -> & ->)]; reflexivity. }
    split; [exact Hlist|]. intros fuel name.
    rewrite listAllContexts_step, getContextByName_step, Hlist. split; reflexivity.
Qed.

End Discipline.

Section Decoding.

Context {runtime : Runtime}.

Implicit Types (c : Client) (params : listContextsParams) (w : World).

(** A fetch whose request was built and answered with status 200. *)
Lemma listContexts_ok_response c params req w resp w' bodyBytes :
  newListContextsRequest c params = Returns (Some req, None) ->
  client c req w = (Ok resp, w') ->
  http.Body resp = Ok bodyBytes ->
  http.StatusCode resp = 200%Z ->
  listContexts c params w =
  match json.Unmarshal json_scan store_listContextsResponse bodyBytes
          {| Items := []; NextPageToken := None; of_client := c; of_params := params |} with
  | (_, Some err) => Returns ((None, Some err), w')
  | (dest, None) => Returns ((Some dest, None), w')
  end.
Proof.
  intros Hreq Hdo Hbody Hstatus.
  unfold listContexts, mbind, IO_bind, bind, pure, Do.
  rewrite Hreq, Hdo, Hbody, Hstatus. cbn [Z.eqb Pos.eqb negb].
  destruct (json.Unmarshal _ _ _ _) as [dest [err|]]; reflexivity.
Qed.

(** X6.  A 200 whose body is no JSON, or is JSON but neither an object
    nor [null], is no page: the fetch returns the decoder's error and a
    nil response, and so do the traversals that start with it. *)
Theorem listContexts_malformed_page c params req w resp w' bodyBytes :
  newListContextsRequest c params = Returns (Some req, None) ->
  client c req w = (Ok resp, w') ->
  http.Body resp = Ok bodyBytes ->
  http.StatusCode resp = 200%Z ->
  forall err,
    match json_scan bodyBytes with
    | None => err = json_SyntaxError
    | Some v =>
        notObject v = true /\ err = json_UnmarshalTypeError "listContextsResponse"
    end ->
    listContexts c params w = Returns ((None, Some err), w')
    /\ forall fuel name,
        listAllContexts (S fuel) c params w = Returns (([], Some err), w')
        /\ getContextByName (S fuel) c params name w = Returns ((None, Some err), w').
Proof.
  intros Hreq Hdo Hbody Hstatus err Herr.
  assert (listContexts c params w = Returns ((None, Some err), w')) as Hlist.
  { rewrite (listContexts_ok_response _ _ _ _ _ _ _ Hreq Hdo Hbody Hstatus).
    unfold json.Unmarshal. destruct (json_scan bodyBytes) as [v|]; [|subst err; reflexivity].
    destruct Herr as [Hv ->]. destruct v; try discriminate Hv; reflexivity. }
  split; [exact Hlist|]. intros fuel name.
  rewrite listAllContexts_step, getContextByName_step, Hlist. split; reflexivity.
Qed.

(** X7.  An answer with a status other than 200 whose body is no JSON,
    or is JSON but neither an object nor [null], makes both operations
    return the decoder's error: a syntax error or a type error, and no
    error made of a message.  The status may be any other, 201 and 204
    included. *)
Theorem undecodable_error_body c params contextID w resp w' bodyBytes :
  http.Body resp = Ok bodyBytes ->
  http.StatusCode resp <> 200%Z ->
  forall err,
    match json_scan bodyBytes with
    | None => err = json_SyntaxError
    | Some v => notObject v = true /\ err = json_UnmarshalTypeError "ErrorResponse"
    end ->
    (forall req,
        newDeleteContextRequest c contextID = Returns (Some req, None) ->
        client c req w = (Ok resp, w') ->
        DeleteContext c contextID w = Returns (Some err, w'))
    /\ (forall req,
          newListContextsRequest c params = Returns (Some req, None) ->
          client c req w = (Ok resp, w') ->
          listContexts c params w = Returns ((None, Some err), w')).
Proof.
  intros Hbody Hstatus err Herr.
  assert (exists dest, decodeError bodyBytes = (dest, Some err)) as [dest Hdecode].
  { unfold decodeError, json.Unmarshal.
    destruct (json_scan bodyBytes) as [v|]; [|subst err; eauto].
    destruct Herr as [Hv ->]. destruct v; try discriminate Hv; eauto. }
  split; intros req Hreq Hdo.
  - rewrite (DeleteContext_response _ _ _ _ _ _ _ Hreq Hdo Hbody).
    apply Z.eqb_neq in Hstatus. rewrite Hstatus, Hdecode. reflexivity.
  - rewrite (listContexts_error_response _ _ _ _ _ _ _ Hreq Hdo Hbody Hstatus), Hdecode.
    reflexivity.
Qed.





(** The field a concrete key selects, by computation. *)
Ltac find_field :=
  repeat match goal with
  | |- context [json.find_field ?fields ?key] =>
      let f := eval cbv delta [json.find_field json.equalFold GoStrings.ToLower]
                 in (json.find_field fields key) in
      let f := eval simpl in f in
      change (json.find_field fields key) with f; cbv beta iota
  end.

Lemma store_Context_document (context : Context) (created : json.value)
    (saved : option error) :
  Time_UnmarshalJSON created Time_zero = Ok (CreatedAt context) ->
  store_Context (contextDocument context created) zero_Context saved = Ok (context, saved).
Proof.
  intros Htime. unfold store_Context, contextDocument, json.store_struct, zero_Context.
  cbn [json.object_members]. find_field.
  cbn [json.store_field json.store_string ID Name CreatedAt].
  unfold store_Time. rewrite Htime. destruct context; reflexivity.
Qed.

Lemma array_elements_documents (contexts : list Context) (createds : list json.value)
    (saved : option error) :
  Forall2 (fun context created =>
             Time_UnmarshalJSON created Time_zero = Ok (CreatedAt context))
    contexts createds ->
  json.array_elements store_Context zero_Context
    (zip_with contextDocument contexts createds) [] saved
  = Ok (contexts, saved).
Proof.
  induction 1 as [|context created contexts createds Htime _ IH]; [reflexivity|].
  cbn [zip_with json.array_elements hd tl].
  rewrite (store_Context_document _ _ _ Htime), IH. reflexivity.
Qed.

(** X9.  Decoding undoes the wire format that the struct tags describe.
    A 200 whose body is a JSON object with, under [items], an array of
    objects with [id], [name] and [created_at], and a token or [null]
    under [next_page_token], is returned as the page of those
    contexts, as many and in the order of the array, with that token:
    [null] is the last page. *)
Theorem listContexts_decodes_page c params req w resp w' bodyBytes
    contexts createds token :
  newListContextsRequest c params = Returns (Some req, None) ->
  client c req w = (Ok resp, w') ->
  http.Body resp = Ok bodyBytes ->
  http.StatusCode resp = 200%Z ->
  Forall2 (fun context created =>
             Time_UnmarshalJSON created Time_zero = Ok (CreatedAt context))
    contexts createds ->
  json_scan bodyBytes = Some (pageDocument contexts createds token) ->
  listContexts c params w
  = Returns ((Some {| Items := contexts; NextPageToken := token; of_client := c;
                      of_params := params |}, None), w').
Proof.
  intros Hreq Hdo Hbody Hstatus Htimes Hscan.
  rewrite (listContexts_ok_response _ _ _ _ _ _ _ Hreq Hdo Hbody Hstatus).
  unfold json.Unmarshal. rewrite Hscan.
  unfold store_listContextsResponse, pageDocument, json.store_struct.
  cbn [json.object_members]. find_field.
  cbn [json.store_field json.store_slice Items NextPageToken of_client of_params].
  rewrite (array_elements_documents _ _ _ Htimes).
  cbn [json.store_field json.store_string_ptr tokenDocument
       Items NextPageToken of_client of_params].
  destruct token; reflexivity.
Qed.

End Decoding.

Section Building.

Context {runtime : Runtime}.

Implicit Types (c : Client) (params : listContextsParams) (w : World).

Lemma escape_app (s t : string) (mode : url.encoding) :
  url.escape (s +:+ t) mode = url.escape s mode +:+ url.escape t mode.
Proof.
  induction s as [|a s IH]; [reflexivity|].
  change (String a s +:+ t) with (String a (s +:+ t)). cbn [url.escape].
  rewrite IH. symmetry. apply append_assoc.
Qed.

(** X10.  [Contexts] and [ContextByName] ask for the owner [vcs/org] and
    nothing else: the query of their first request is [owner-slug=]
    followed by the escaped [vcs], the escaped slash [%2F] and the
    escaped [org], without id, type or token. *)
Theorem owner_slug_query (org vcs : string) :
  url.Encode (urlParams (ownerParams org vcs))
  = "owner-slug=" +:+ url.QueryEscape vcs +:+ "%2F" +:+ url.QueryEscape org
  /\ forall c base joined,
      url_Parse (server c) = Ok base ->
      URL_Parse base "context" = Ok joined ->
      newListContextsRequest c (ownerParams org vcs)
      = Returns (newHTTPRequest c "GET"
                   (URL_String
                      (url.set_RawQuery joined
                         ("owner-slug=" +:+ url.QueryEscape vcs +:+ "%2F"
                          +:+ url.QueryEscape org)))).
Proof.
  assert (url.Encode (urlParams (ownerParams org vcs))
          = "owner-slug=" +:+ url.QueryEscape vcs +:+ "%2F" +:+ url.QueryEscape org) as H.
  { rewrite Encode_urlParams. unfold ownerParams, toSlug, present, url.QueryEscape.
    cbn [OwnerID OwnerSlug OwnerType PageToken app List.map String.concat].
    rewrite !escape_app. reflexivity. }
  split; [exact H|]. intros c base joined Hbase Hjoined.
  unfold newListContextsRequest. rewrite Hbase, Hjoined, H. reflexivity.
Qed.

(** X11.  The request for the next page differs from the one before in
    its token only: the owner fields are sent as they were, and one
    [page-token], the one just received, comes last, whatever token the
    parameters held before. *)
Theorem next_page_query params (old : option string) (next : string) :
  let owners := url.Encode (urlParams (set_PageToken params None)) in
  url.Encode (urlParams (set_PageToken (set_PageToken params old) (Some next)))
  = (if String.eqb owners "" then "" else owners +:+ "&")
    +:+ "page-token=" +:+ url.QueryEscape next.
Proof.
  cbv zeta. rewrite !Encode_urlParams.
  destruct params as [[a|] [b|] [d|] t];
    cbn [present set_PageToken OwnerID OwnerSlug OwnerType PageToken app List.map
         String.concat];
    match goal with
    | |- context [String.eqb ?s ""] =>
        first [change (String.eqb s "") with false | change (String.eqb s "") with true]
    end;
    cbv iota; rewrite ?append_assoc; reflexivity.
Qed.

(** X12.  The requests the builders return are complete as they stand:
    the listing is a GET and the deletion a DELETE, each with exactly
    two header keys, [Circle-Token] with the client's token and
    [Accept] with [application/json], and the builder's error is nil. *)
Theorem requests_have_method_and_two_headers c req err :
  (forall params,
      newListContextsRequest c params = Returns (Some req, err) ->
      http.Method req = "GET"
      /\ err = None
      /\ http.Header_ req
         = <["Accept" := ["application/json"]]> (<["Circle-Token" := [token c]]> ∅))
  /\ (forall contextID,
        newDeleteContextRequest c contextID = Returns (Some req, err) ->
        http.Method req = "DELETE"
        /\ err = None
        /\ http.Header_ req
           = <["Accept" := ["application/json"]]> (<["Circle-Token" := [token c]]> ∅)).
Proof.
  split.
  - intros params. unfold newListContextsRequest, newHTTPRequest, http.NewRequest.
    destruct (url_Parse (server c)) as [base|e]; [|discriminate].
    destruct (URL_Parse base "context") as [joined|e]; [|discriminate].
    change (http.validMethod _) with true. cbv iota.
    destruct (url_Parse _) as [u|e]; [|discriminate].
    intros [= <- <-]. repeat split.
  - intros contextID. unfold newDeleteContextRequest, newHTTPRequest, http.NewRequest.
    destruct (url_Parse (server c)) as [base|e]; [|discriminate].
    destruct (URL_Parse base _) as [joined|e]; [|discriminate].
    change (http.validMethod _) with true. cbv iota.
    destruct (url_Parse _) as [u|e]; [|discriminate].
    intros [= <- <-]. repeat split.
Qed.

End Building.

Section Bounds.

Context {runtime : Runtime}.

Implicit Types (c : Client) (params : listContextsParams) (w : World).

(** X13.  The traversals set no limit to the number of pages and keep no
    record of the tokens they were given.  Where every fetch is answered
    with a page and one more token, as by a server that hands out the
    same token again, [listAllContexts] does not return: whatever the
    depth allowed to the recursion, it is used up.  So does
    [getContextByName] when no page has a context of the name. *)
Theorem traversal_has_no_page_limit c (live : listContextsParams -> World -> Prop) :
  (forall params w, live params w ->
     exists resp token w',
       listContexts c params w = Returns ((Some resp, None), w')
       /\ NextPageToken resp = Some token
       /\ live (set_PageToken params (Some token)) w') ->
  forall fuel params w, live params w ->
    listAllContexts fuel c params w = OutOfFuel
    /\ forall name,
        (forall params w resp w',
            live params w ->
            listContexts c params w = Returns ((Some resp, None), w') ->
            List.find (fun context => String.eqb (Name context) name) (Items resp) = None) ->
        getContextByName fuel c params name w = OutOfFuel.
Proof.
  intros Hlive fuel. induction fuel as [|fuel IH]; intros params w Hw.
  - split; reflexivity.
  - destruct (Hlive params w Hw) as (resp & token & w' & Hfetch & Htoken & Hnext).
    destruct (IH _ _ Hnext) as [Hall Hfind]. split.
    + rewrite listAllContexts_step, Hfetch, Htoken.
      rewrite Hall. reflexivity.
    + intros name Hname.
      rewrite getContextByName_step, Hfetch, (Hname _ _ _ _ Hw Hfetch), Htoken.
      specialize (Hfind name Hname). rewrite Hfind. reflexivity.
Qed.

(** X14.  An operation calls the transport once, with the request its
    builder returned, and not at all when the builder returned an error:
    the world it leaves is the one that call left, or the one it began
    in.  Nothing is sent twice. *)
Theorem operations_send_one_request c params contextID w :
  (forall req r w',
      newListContextsRequest c params = Returns (Some req, None) ->
      listContexts c params w = Returns (r, w') ->
      w' = (client c req w).2)
  /\ (forall req err r w',
        newListContextsRequest c params = Returns (req, Some err) ->
        listContexts c params w = Returns (r, w') ->
        w' = w)
  /\ (forall req r w',
        newDeleteContextRequest c contextID = Returns (Some req, None) ->
        DeleteContext c contextID w = Returns (r, w') ->
        w' = (client c req w).2)
  /\ (forall req err r w',
        newDeleteContextRequest c contextID = Returns (req, Some err) ->
        DeleteContext c contextID w = Returns (r, w') ->
        w' = w).
Proof.
  repeat split.
  - intros req r w' Hreq.
    unfold listContexts, mbind, IO_bind, bind, pure, Do, ret, throw. rewrite Hreq.
    destruct (client c req w) as [[resp|e] w1]; cbn [snd]; [|congruence].
    destruct (http.Body resp) as [bodyBytes|e]; [|congruence].
    destruct (negb _).
    + destruct (json.Unmarshal _ _ _ _) as [dest [e|]]; [congruence|].
      destruct (Message dest); congruence.
    + destruct (json.Unmarshal _ _ _ _) as [dest [e|]]; congruence.
  - intros req err r w' Hreq.
    unfold listContexts, mbind, IO_bind, bind, pure, Do, ret, throw. rewrite Hreq.
    congruence.
  - intros req r w' Hreq.
    unfold DeleteContext, mbind, IO_bind, bind, pure, Do, ret, throw. rewrite Hreq.
    destruct (client c req w) as [[resp|e] w1]; cbn [snd]; [|congruence].
    destruct (http.Body resp) as [bodyBytes|e]; [|congruence].
    destruct (negb _); [|congruence].
    destruct (json.Unmarshal _ _ _ _) as [dest [e|]]; [congruence|].
    destruct (Message dest); congruence.
  - intros req err r w' Hreq.
    unfold DeleteContext, mbind, IO_bind, bind, pure, Do, ret, throw. rewrite Hreq.
    congruence.
Qed.

End Bounds.

Section Sent.




End Sent.

Section Owners.

Context {runtime : Runtime}.

Implicit Types (c : Client) (params : listContextsParams) (w : World).

Lemma toSlug_cut (org vcs : string) :
  GoStrings.ContainsByte vcs "/" = false ->
  GoStrings.CutByte (toSlug org vcs) "/" = Some (vcs, org).
Proof.
  unfold toSlug, GoStrings.ContainsByte.
  induction vcs as [|a vcs IH]; [reflexivity|].
  change (String a vcs +:+ "/" +:+ org) with (String a (vcs +:+ "/" +:+ org)).
  cbn [GoStrings.CutByte]. destruct (Ascii.eqb a "/"); [discriminate|].
  destruct (GoStrings.CutByte vcs "/") as [[before after]|] eqn:E; [discriminate|].
  intros _. rewrite IH; reflexivity.
Qed.

Lemma QueryEscape_inj (s t : string) :
  url.QueryEscape s = url.QueryEscape t -> s = t.
Proof.
  intros H. apply (f_equal url.QueryUnescape) in H.
  rewrite !QueryUnescape_QueryEscape in H. congruence.
Qed.

Lemma append_inv_head (p s t : string) : p +:+ s = p +:+ t -> s = t.
Proof.
  induction p as [|a p IH]; [trivial|].
  change (String a (p +:+ s) = String a (p +:+ t) -> s = t). intros [= H]. auto.
Qed.

(** X16.  The owner is sent as one text, the name of the version-control
    system, a slash and the organisation.  Two owners whose system names
    have no slash get different slugs and different queries: the server
    can tell them apart. *)
Theorem owners_are_told_apart (org vcs org' vcs' : string) :
  GoStrings.ContainsByte vcs "/" = false ->
  GoStrings.ContainsByte vcs' "/" = false ->
  (toSlug org vcs = toSlug org' vcs' -> org = org' /\ vcs = vcs')
  /\ (url.Encode (urlParams (ownerParams org vcs))
      = url.Encode (urlParams (ownerParams org' vcs')) ->
      org = org' /\ vcs = vcs').
Proof.
  intros Hvcs Hvcs'.
  assert (toSlug org vcs = toSlug org' vcs' -> org = org' /\ vcs = vcs') as Hslug.
  { intros H. pose proof (toSlug_cut org vcs Hvcs) as Hcut.
    rewrite H, (toSlug_cut org' vcs' Hvcs') in Hcut. now inversion Hcut. }
  split; [exact Hslug|]. rewrite !Encode_urlParams. unfold ownerParams, present.
  cbn [OwnerID OwnerSlug OwnerType PageToken app List.map String.concat].
  intros H. apply Hslug, QueryEscape_inj.
  exact (append_inv_head "owner-slug=" _ _ H).
Qed.

(** X17.  [NewClient] normalises once: the server it stores ends in a
    slash, the token and the transport are the ones given, and making a
    client from the server of a client adds nothing more. *)
Theorem NewClient_idempotent (srv tok : string) :
  NewClient (server (NewClient srv tok)) tok = NewClient srv tok
  /\ token (NewClient srv tok) = tok
  /\ client (NewClient srv tok) = http_Client_Do
  /\ (GoStrings.HasSuffix srv "/" = true -> server (NewClient srv tok) = srv).
Proof.
  destruct (NewClient_server srv tok) as [Hserver Hslash].
  repeat split.
  - unfold NewClient at 1. rewrite Hslash. reflexivity.
  - intros H. rewrite Hserver, H. reflexivity.
Qed.


End Owners.

Section Deleting.

Import GoStrings.

Lemma pathByte_facts (c : ascii) :
  isAlnum c || oneOf "-_/" c = true ->
  negb (N.ltb (N_of_ascii c) 32 || N.eqb (N_of_ascii c) 127) = true
  /\ negb (Ascii.eqb c "#") = true
  /\ negb (Ascii.eqb c "?") = true
  /\ negb (Ascii.eqb c ":") = true
  /\ negb (url.shouldEscape c url.encodePath) = true.
Proof.
  destruct c as [[] [] [] [] [] [] [] []]; vm_compute; intros H;
    try discriminate H; repeat split.
Qed.

Lemma plainByte_facts (c : ascii) :
  isAlnum c || oneOf "-_" c = true ->
  isAlnum c || oneOf "-_/" c = true
  /\ negb (Ascii.eqb c "/") = true
  /\ negb (Ascii.eqb c ".") = true.
Proof.
  destruct c as [[] [] [] [] [] [] [] []]; vm_compute; intros H;
    try discriminate H; repeat split.
Qed.

Lemma all_impl (p q : ascii -> bool) (s : string) :
  (forall c, p c = true -> q c = true) -> all p s = true -> all q s = true.
Proof.
  intros Hpq. induction s as [|a s IH]; [reflexivity|].
  cbn [all]. intros [Ha Hs]%andb_prop. rewrite (Hpq _ Ha), (IH Hs). reflexivity.
Qed.

Lemma CutByte_absent (s : string) (c : ascii) :
  all (fun a => negb (Ascii.eqb a c)) s = true -> CutByte s c = None.
Proof.
  induction s as [|a s IH]; [reflexivity|].
  cbn [all CutByte]. intros [Ha Hs]%andb_prop.
  apply negb_true_iff in Ha. rewrite Ha, (IH Hs). reflexivity.
Qed.

Lemma HasSuffix_absent (s : string) (c : ascii) :
  all (fun a => negb (Ascii.eqb a c)) s = true -> HasSuffix s (String c "") = false.
Proof.
  induction s as [|a s IH]; [reflexivity|].
  cbn [all HasSuffix String.eqb]. intros [Ha Hs]%andb_prop.
  apply negb_true_iff in Ha. rewrite Ha, (IH Hs). reflexivity.
Qed.

Lemma scanScheme_absent (s : string) (first : bool) :
  all (fun a => negb (Ascii.eqb a ":")) s = true -> Ref.scanScheme first s = None.
Proof.
  revert first. induction s as [|a s IH]; intros first; [reflexivity|].
  cbn [all Ref.scanScheme]. intros [Ha Hs]%andb_prop.
  apply negb_true_iff in Ha. rewrite Ha, !(IH _ Hs).
  destruct (isLower a || isUpper a); [reflexivity|].
  destruct (isDigit a || oneOf "+-." a); [destruct first; reflexivity | reflexivity].
Qed.

Lemma Parse_context_ID (contextID : string) :
  plainID contextID = true ->
  Ref.Parse ("context/" +:+ contextID) = Ok (relative ("context/" +:+ contextID)).
Proof.
  intros Hplain.
  assert (all (fun c => isAlnum c || oneOf "-_/" c) ("context/" +:+ contextID) = true)
    as Hpath.
  { rewrite all_app. apply andb_true_intro. split; [reflexivity|].
    revert Hplain. apply all_impl. intros c Hc. apply (plainByte_facts c Hc). }
  set (ref := "context/" +:+ contextID) in *.
  unfold Ref.Parse, Ref.Cut.
  rewrite (CutByte_absent ref "#")
    by (revert Hpath; apply all_impl; intros c Hc; apply (pathByte_facts c Hc)).
  unfold Ref.parse, Ref.stringContainsCTLByte.
  rewrite (all_impl _ _ ref (fun c Hc => proj1 (pathByte_facts c Hc)) Hpath).
  cbn [negb].
  assert (String.eqb ref "*" = false) as -> by reflexivity.
  assert (Ref.getScheme ref = Ok ("", ref)) as ->.
  { unfold Ref.getScheme. assert (HasPrefix ref ":" = false) as -> by reflexivity.
    rewrite scanScheme_absent; [reflexivity|].
    revert Hpath. apply all_impl. intros c Hc. apply (pathByte_facts c Hc). }
  assert (HasSuffix ref "?" = false) as ->.
  { apply (HasSuffix_absent ref "?"). revert Hpath. apply all_impl.
    intros c Hc. apply (pathByte_facts c Hc). }
  assert (Ref.Cut ref "?" = (ref, "")) as ->.
  { unfold Ref.Cut. rewrite CutByte_absent; [reflexivity|].
    revert Hpath. apply all_impl. intros c Hc. apply (pathByte_facts c Hc). }
  cbn [andb fst snd ToLower GoStrings.map String.eqb negb].
  assert (HasPrefix ref "/" = false) as -> by reflexivity.
  assert (ContainsByte (Ref.Cut ref "/").1 ":" = false) as -> by reflexivity.
  assert (HasPrefix ref "//" = false) as -> by reflexivity.
  assert (Ref.canonicalPath ref = true) as Hcanon.
  { revert Hpath. apply all_impl. intros c Hc. apply (pathByte_facts c Hc). }
  cbn [andb negb orb].
  unfold Ref.setPath.
  rewrite (unescape_canonical _ Hcanon), (escape_canonical _ Hcanon), String.eqb_refl.
  reflexivity.
Qed.

Lemma Split_slash (s t : string) :
  Ref.Split (s +:+ String "/" t) = Ref.Split s ++ Ref.Split t.
Proof.
  induction s as [|a s IH]; [reflexivity|].
  change (String a s +:+ String "/" t) with (String a (s +:+ String "/" t)).
  cbn [Ref.Split]. rewrite IH.
  destruct (Ascii.eqb a "/"); [reflexivity|].
  destruct (Split_cons s) as (elem & elems & ->). reflexivity.
Qed.

Lemma Split_plainID (contextID : string) :
  plainID contextID = true -> Ref.Split contextID = [contextID].
Proof.
  induction contextID as [|a s IH]; [reflexivity|].
  unfold plainID. cbn [all Ref.Split]. intros [Ha Hs]%andb_prop.
  destruct (plainByte_facts a Ha) as (_ & Hslash & _).
  apply negb_true_iff in Hslash. rewrite Hslash, (IH Hs). reflexivity.
Qed.

Lemma dotless_context_ID (path contextID : string) :
  HasSuffix path "/" = true ->
  Ref.dotless (path +:+ "context") = true ->
  plainID contextID = true ->
  Ref.dotless (path +:+ "context/" +:+ contextID) = true.
Proof.
  intros Hslash Hdots Hplain. destruct (HasSuffix_slash _ Hslash) as [p0 ->].
  unfold Ref.dotless in *. rewrite append_assoc in Hdots |- *.
  change ("/" +:+ "context") with (String "/" "context") in Hdots.
  change ("/" +:+ "context/" +:+ contextID)
    with (String "/" ("context" +:+ String "/" contextID)).
  rewrite Split_slash in Hdots. rewrite !Split_slash, (Split_plainID _ Hplain).
  rewrite forallb_app in Hdots |- *. apply andb_prop in Hdots as [Hp0 _].
  rewrite Hp0. cbn [andb]. rewrite forallb_app. cbn [Ref.Split forallb].
  destruct contextID as [|a s]; [reflexivity|].
  unfold plainID in Hplain. cbn [all] in Hplain. apply andb_prop in Hplain as [Ha _].
  destruct (plainByte_facts a Ha) as (_ & _ & Hdot). apply negb_true_iff in Hdot.
  cbn [String.eqb]. rewrite Hdot. reflexivity.
Qed.

(** X19.  A plain context ID is deleted at the base followed by
    [context/] and the ID.  When the stored server parses to a plain
    base URL, the request [DeleteContext] sends for an ID of letters,
    digits, hyphens and underscores is the DELETE of that URL, with no
    byte of the ID escaped, dropped or read as a path of its own. *)
Theorem newDeleteContextRequest_plainID (c : @Client Ref.runtime) contextID base :
  Ref.Parse (server c) = Ok base ->
  Ref.plainBase base = true ->
  plainID contextID = true ->
  newDeleteContextRequest c contextID =
  Returns (newHTTPRequest c "DELETE"
             (Ref.URL_String base +:+ "context/" +:+ contextID)).
Proof.
  intros Hbase Hplain Hid. unfold Ref.plainBase in Hplain.
  repeat (apply andb_prop in Hplain as [Hplain ?]).
  repeat match goal with H : String.eqb _ _ = true |- _ => apply String.eqb_eq in H end.
  match goal with H : negb _ = true |- _ => apply negb_true_iff in H end.
  destruct base as [scheme opaque user host path rawPath forceQuery rawQuery frag rawFrag].
  cbn [url.Opaque url.RawPath url.RawQuery url.ForceQuery url.Fragment url.Path] in *.
  subst opaque rawPath rawQuery forceQuery frag.
  unfold newDeleteContextRequest.
  change (@url_Parse Ref.runtime) with Ref.Parse.
  change (@URL_Parse Ref.runtime) with Ref.URL_Parse.
  change (@URL_String Ref.runtime) with Ref.URL_String.
  rewrite Hbase. unfold Ref.URL_Parse. rewrite (Parse_context_ID _ Hid).
  do 2 f_equal.
  assert (Ref.canonicalPath ("context/" +:+ contextID) = true) as Hrefcanon.
  { rewrite canonicalPath_app. apply andb_true_intro. split; [reflexivity|].
    revert Hid. apply all_impl. intros a Ha.
    apply (pathByte_facts a (proj1 (plainByte_facts a Ha))). }
  assert (Ref.canonicalPath (path +:+ "context/" +:+ contextID) = true) as Hcanon.
  { rewrite canonicalPath_app. apply andb_true_intro. split; assumption. }
  assert (HasPrefix (path +:+ "context/" +:+ contextID) "/" = true) as Habs
    by (apply HasPrefix_app; assumption).
  assert (path <> EmptyString) as Hpath by (intros ->; discriminate).
  assert (path +:+ "context/" +:+ contextID <> EmptyString) as Hjoined
    by (intros E; rewrite E in Habs; discriminate).
  unfold Ref.ResolveReference, relative.
  cbn [url.Scheme url.Host url.User url.Opaque url.Path url.ForceQuery url.RawQuery
       url.Fragment url.RawFragment url.RawPath String.eqb negb orb andb].
  rewrite (EscapedPath_canonical
             {| url.Scheme := scheme; url.Opaque := ""; url.User := user; url.Host := host;
                url.Path := path; url.RawPath := ""; url.ForceQuery := false;
                url.RawQuery := ""; url.Fragment := ""; url.RawFragment := rawFrag |})
    by (trivial || assumption).
  assert (Ref.EscapedPath
            {| url.Scheme := ""; url.Opaque := ""; url.User := None; url.Host := "";
               url.Path := "context/" +:+ contextID; url.RawPath := "";
               url.ForceQuery := false; url.RawQuery := ""; url.Fragment := "";
               url.RawFragment := "" |} = "context/" +:+ contextID) as ->.
  { unfold Ref.EscapedPath. cbn [url.RawPath url.Path String.eqb negb andb].
    change (String.eqb ("context/" +:+ contextID) "*") with false. cbv iota.
    apply escape_canonical, Hrefcanon. }
  cbn [url.Path].
  rewrite resolvePath_appends;
    [| assumption | assumption | discriminate | reflexivity
     | apply dotless_context_ID; assumption].
  unfold Ref.setPath_, Ref.setPath.
  rewrite (unescape_canonical _ Hcanon), (escape_canonical _ Hcanon), String.eqb_refl.
  cbn [url.Scheme url.Host url.User url.Opaque url.Path url.ForceQuery url.RawQuery
       url.Fragment url.RawFragment url.RawPath].
  change (String.eqb ("context/" +:+ contextID) "") with false. cbn [andb].
  rewrite !URL_String_absolute;
    cbn [url.Opaque url.Fragment url.Path]; trivial;
    rewrite ?EscapedPath_canonical; cbn [url.RawPath url.Path]; trivial.
  unfold Ref.beforePath, Ref.afterPath.
  cbn [url.Scheme url.Host url.User url.ForceQuery url.RawQuery String.eqb negb orb].
  rewrite !append_nil_r, !append_assoc. reflexivity.
Qed.

End Deleting.

Section Samples.

Import Example Sample.



(** No context is named [release] on the first two pages, and the third
    answers 500: the search returns the error of that answer. *)
Lemma getContextByName_fails_witness :
  walked (acme true) acmeParams [] [[c1; c2]; [c3; c4]]
    (set_PageToken acmeParams (Some "p3")) (fetch2 true)
  /\ List.find (fun context => String.eqb (Name context) "release")
       (concat [[c1; c2]; [c3; c4]]) = None
  /\ listContexts (acme true) (set_PageToken acmeParams (Some "p3")) (fetch2 true)
     = Returns ((None, Some (errors_New "backend unavailable")), fetch3 true)
  /\ 2 < 3
  /\ getContextByName 3 (acme true) acmeParams "release" []
     = Returns ((None, Some (errors_New "backend unavailable")), fetch3 true)
  /\ ContextByName 3 (acme true) "acme" "gh" "release" []
     = Returns ((None, Some (errors_New "backend unavailable")), fetch3 true).
Proof.
  assert (listContexts (acme true) (set_PageToken acmeParams (Some "p3")) (fetch2 true)
          = Returns ((None, Some (errors_New "backend unavailable")), fetch3 true)) as Hfail
    by reflexivity.
  split; [exact (acme_walked true)|]. split; [reflexivity|]. split; [exact Hfail|].
  split; [lia|].
  destruct (getContextByName_fails (acme true) acmeParams "release" [] [[c1; c2]; [c3; c4]]
              (set_PageToken acmeParams (Some "p3")) (fetch2 true) None
              (errors_New "backend unavailable") (fetch3 true) (acme_walked true)
              eq_refl Hfail 3 ltac:(cbn [length]; lia)) as [Hfind Hname].
  split; [exact Hfind | exact (Hname "acme" "gh" eq_refl)].
Defined.

(** A 200 with a page of HTML. *)
Lemma listContexts_malformed_page_witness :
  newListContextsRequest (answering 200 "<html>") acmeParams
  = Returns (Some (listAcme None), None)
  /\ client (answering 200 "<html>") (listAcme None) []
     = (Ok (answer 200 "<html>"), [listAcme None])
  /\ http.Body (answer 200 "<html>") = Ok (js "<html>")
  /\ http.StatusCode (answer 200 "<html>") = 200%Z
  /\ json_scan (js "<html>") = None
  /\ listContexts (answering 200 "<html>") acmeParams []
     = Returns ((None, Some json_SyntaxError), [listAcme None])
  /\ Contexts 1 (answering 200 "<html>") "acme" "gh" []
     = Returns (([], Some json_SyntaxError), [listAcme None]).
Proof.
  split; [reflexivity|]. split; [reflexivity|]. split; [reflexivity|].
  split; [reflexivity|]. split; [reflexivity|].
  destruct (listContexts_malformed_page (answering 200 "<html>") acmeParams (listAcme None)
              [] (answer 200 "<html>") [listAcme None] (js "<html>")
              eq_refl eq_refl eq_refl eq_refl json_SyntaxError eq_refl) as [Hfetch Hall].
  split; [exact Hfetch | exact (proj1 (Hall 0 "deploy"))].
Defined.

(** A 503 with a line of text: both operations return the syntax
    error. *)
Lemma undecodable_error_body_witness :
  http.Body (answer 503 "Service Unavailable") = Ok (js "Service Unavailable")
  /\ http.StatusCode (answer 503 "Service Unavailable") <> 200%Z
  /\ json_scan (js "Service Unavailable") = None
  /\ DeleteContext (answering 503 "Service Unavailable") "abc" []
     = Returns (Some json_SyntaxError, [deleteAbc])
  /\ listContexts (answering 503 "Service Unavailable") acmeParams []
     = Returns ((None, Some json_SyntaxError), [listAcme None]).
Proof.
  split; [reflexivity|]. split; [discriminate|]. split; [reflexivity|].
  destruct (undecodable_error_body (answering 503 "Service Unavailable") acmeParams "abc" []
              (answer 503 "Service Unavailable") [deleteAbc] (js "Service Unavailable")
              eq_refl ltac:(discriminate) json_SyntaxError eq_refl) as [Hdelete _].
  destruct (undecodable_error_body (answering 503 "Service Unavailable") acmeParams "abc" []
              (answer 503 "Service Unavailable") [listAcme None] (js "Service Unavailable")
              eq_refl ltac:(discriminate) json_SyntaxError eq_refl) as [_ Hlist].
  split; [exact (Hdelete deleteAbc eq_refl eq_refl) | exact (Hlist (listAcme None) eq_refl eq_refl)].
Defined.


(** The first page of the listing. *)
Lemma listContexts_decodes_page_witness :
  newListContextsRequest (acme false) acmeParams = Returns (Some (listAcme None), None)
  /\ client (acme false) (listAcme None) [] = (Ok (answer 200 page1), [listAcme None])
  /\ json_scan (js page1) = Some (pageDocument [c1; c2] [created c1; created c2] (Some "p2"))
  /\ listContexts (acme false) acmeParams []
     = Returns ((Some (page false [c1; c2] (Some "p2") None), None), [listAcme None]).
Proof.
  split; [reflexivity|]. split; [reflexivity|]. split; [reflexivity|].
  apply (listContexts_decodes_page (acme false) acmeParams (listAcme None) []
           (answer 200 page1) [listAcme None] (js page1) [c1; c2] [created c1; created c2]
           (Some "p2") eq_refl eq_refl eq_refl eq_refl);
    [repeat constructor | reflexivity].
Defined.

(** A server that answers every request with the token of the page
    asked for: twenty fetches and no result. *)
Lemma traversal_has_no_page_limit_witness :
  circling atAgain []
  /\ listAllContexts 20 (answering 200 again) atAgain [] = OutOfFuel
  /\ getContextByName 20 (answering 200 again) atAgain "deploy" [] = OutOfFuel.
Proof.
  split; [reflexivity|].
  assert (forall w : list http.Request,
             listContexts (answering 200 again) atAgain w
             = Returns ((Some {| Items := []; NextPageToken := Some "again";
                                 of_client := answering 200 again;
                                 of_params := atAgain |}, None),
                        w ++ [listAcme (Some "again")])) as Hfetch.
  { intros w. reflexivity. }
  destruct (traversal_has_no_page_limit (answering 200 again) circling) with
    (fuel := 20) (params := atAgain) (w := @nil http.Request) as [Hall Hfind].
  - intros params w ->.
    exists {| Items := []; NextPageToken := Some "again";
              of_client := answering 200 again; of_params := atAgain |},
      "again", (w ++ [listAcme (Some "again")]).
    split; [exact (Hfetch w)|]. split; reflexivity.
  - reflexivity.
  - split; [exact Hall|]. apply Hfind.
    intros params w resp w' -> H. rewrite Hfetch in H.
    injection H as <- _. reflexivity.
Defined.


(** Two organisations of one name on two systems. *)
Lemma owners_are_told_apart_witness :
  GoStrings.ContainsByte "gh" "/" = false
  /\ GoStrings.ContainsByte "bb" "/" = false
  /\ (toSlug "acme" "gh" = toSlug "acme" "bb" -> "acme" = "acme" /\ "gh" = "bb")
  /\ toSlug "acme" "gh" = "gh/acme".
Proof.
  split; [reflexivity|]. split; [reflexivity|].
  split; [|reflexivity].
  exact (proj1 (owners_are_told_apart "acme" "gh" "acme" "bb" eq_refl eq_refl)).
Defined.


(** The client of the API and a context ID of three letters. *)
Lemma newDeleteContextRequest_plainID_witness :
  Ref.Parse (server (NewClient "https://circleci.com/api/v2" "secret")) = Ok apiBase
  /\ Ref.plainBase apiBase = true
  /\ plainID "abc" = true
  /\ newDeleteContextRequest (NewClient "https://circleci.com/api/v2" "secret") "abc"
     = Returns (newHTTPRequest (NewClient "https://circleci.com/api/v2" "secret") "DELETE"
                  "https://circleci.com/api/v2/context/abc").
Proof.
  split; [reflexivity|]. split; [reflexivity|]. split; [reflexivity|].
  exact (newDeleteContextRequest_plainID (NewClient "https://circleci.com/api/v2" "secret")
           "abc" apiBase eq_refl eq_refl eq_refl).
Defined.

End Samples.
